(** * Smart Colab agent v2: checkpoint store, transport dispatcher and
      chunked execution engine

    A shallow embedding of [src/agent/mcp_smart_colab_v2.py].  The Python
    functions are written in a small state-and-exception monad over a
    [world] that holds the checkpoint directory, the wall clock, the remote
    backend and the log of the requests sent so far.

    Modelling choices:
    - a JSON document is a value of [json]; integers are unbounded ([Z])
      and the interpreter's limit on the digits of an int rendered as text
      is not modelled; floats are not represented, so the statements are
      about documents that hold none;
    - true division of ints raises where Python's does (a zero divisor, a
      quotient beyond the float range); the float it yields otherwise is
      stood for by the exact quotient, so ["progress_pct"] is compared
      between calls but its value is not stated;
    - a path is the text [CHECKPOINT_DIR/operation_date.json]; the normal
      form that [pathlib] gives it is not computed, so a statement about
      the text of a path leaves that text open;
    - a file of the checkpoint directory holds what [json.load] reads from
      it: [Some v] for a document [v], [None] for text that [json.load]
      rejects; [json.dump] followed by [json.load] is taken to be the
      identity on [json]; [open] refusing a write ([OSError], or
      [ValueError] for a NUL character) is outside the model except in
      [save_checkpoint_in], which knows the directories of the host, and
      limits of the host on the length of a name are outside it everywhere;
    - [datetime.now()] reads the next value of a clock, of which only the
      two renderings the program uses are kept;
    - the backend answers the k-th request with an arbitrary [net_event]. *)

From Stdlib Require Import ZArith QArith String Ascii List Lia.
From Stdlib Require Import DecimalString DecimalZ DecimalPos.
From stdpp Require Import base option gmap strings list fin_maps.

Set Warnings "-register-all".
Local Open Scope string_scope.
Local Open Scope Z_scope.

(** ** Values *)

Inductive json : Type :=
| JNull
| JBool (b : bool)
| JInt (z : Z)
| JStr (s : string)
| JList (l : list json)
| JDict (d : list (string * json)).

(** Python exceptions that the modelled code can raise. *)
Inductive exn : Type :=
| AttributeError
| TypeError
| KeyError
| ZeroDivisionError
| JSONDecodeError
| FileNotFoundError
| OverflowError
| ValueError.

Inductive outcome (A : Type) : Type :=
| Returned (a : A)
| Raised (e : exn).
Arguments Returned {A} a.
Arguments Raised {A} e.

(** [str(n)] for a Python int. *)
Definition str_int (z : Z) : string := NilZero.string_of_int (Z.to_int z).

Definition nl : string := String "010"%char EmptyString.
Definition dquote : string := String "034"%char EmptyString.

(** ** Python expressions on JSON values *)

(** Truth value of an object, as tested by [if x:]. *)
Definition truthy (v : json) : bool :=
  match v with
  | JNull => false
  | JBool b => b
  | JInt z => negb (z =? 0)
  | JStr s => negb (String.eqb s "")
  | JList l => match l with [] => false | _ => true end
  | JDict d => match d with [] => false | _ => true end
  end.

Fixpoint dict_get (key : string) (d : list (string * json)) : option json :=
  match d with
  | [] => None
  | (k, v) :: rest => if String.eqb k key then Some v else dict_get key rest
  end.

(** [obj.get(key, default)]: only a dict has the method. *)
Definition py_get (obj : json) (key : string) (default : json) : outcome json :=
  match obj with
  | JDict d => Returned (match dict_get key d with Some v => v | None => default end)
  | _ => Raised AttributeError
  end.

(** [obj[key]] for a string key. *)
Definition py_item (obj : json) (key : string) : outcome json :=
  match obj with
  | JDict d => match dict_get key d with Some v => Returned v | None => Raised KeyError end
  | _ => Raised TypeError
  end.

(** [obj[:n]]: strings and lists can be sliced. *)
Definition py_slice_to (n : nat) (obj : json) : outcome json :=
  match obj with
  | JStr s => Returned (JStr (substring 0 n s))
  | JList l => Returned (JList (firstn n l))
  | _ => Raised TypeError
  end.

(** The integer an object stands for in arithmetic ([bool] is a subclass
    of [int]). *)
Definition py_int (v : json) : option Z :=
  match v with
  | JInt z => Some z
  | JBool b => Some (Z.b2z b)
  | _ => None
  end.

(** [obj + n] for an int [n]. *)
Definition py_add_int (obj : json) (n : Z) : outcome Z :=
  match py_int obj with
  | Some z => Returned (z + n)
  | None => Raised TypeError
  end.

(** [obj == n] for an int [n]. *)
Definition py_eq_int (obj : json) (n : Z) : bool :=
  match py_int obj with
  | Some z => z =? n
  | None => false
  end.

(** [f"{obj}"] for the objects that reach a format field. *)
Definition py_str (obj : json) : string :=
  match obj with
  | JInt z => str_int z
  | JBool true => "True"
  | JBool false => "False"
  | JNull => "None"
  | JStr s => s
  | _ => ""
  end.

(** [range(a, b)] *)
Definition py_range (a b : Z) : list Z :=
  map (fun k => a + Z.of_nat k) (seq 0 (Z.to_nat (b - a))).

(** ** The world and the monad *)

Record datetime : Type := Datetime {
  ymd : string;   (* strftime('%Y%m%d') *)
  iso : string    (* isoformat() *)
}.

Inductive http_method : Type := GET | POST.

Record request : Type := Request {
  req_method : http_method;
  req_url : string;
  req_timeout : Z;
  req_json : option json
}.

(** What happens to one HTTP request. *)
Inductive net_event : Type :=
| NetResponse (status_code : Z) (text : string) (parsed : string + json)
    (* a response arrived; [response.json()] raises with a message or
       returns a document *)
| NetTimeout (elapsed : Z)
    (* requests.exceptions.Timeout, raised after [elapsed] seconds *)
| NetConnectionError
| NetOther (message : string).

Record world : Type := World {
  files : gmap string (option json);
  clock : nat -> datetime;
  ticks : nat;
  backend : nat -> net_event;
  requests : list request
}.

Definition Py (A : Type) : Type := world -> outcome A * world.

Definition ret {A} (a : A) : Py A := fun w => (Returned a, w).
Definition raise {A} (e : exn) : Py A := fun w => (Raised e, w).
Definition bind {A B} (m : Py A) (k : A -> Py B) : Py B :=
  fun w => match m w with
           | (Returned a, w') => k a w'
           | (Raised e, w') => (Raised e, w')
           end.
Definition lift {A} (o : outcome A) : Py A := fun w => (o, w).

Notation "'let*' x ':=' m 'in' k" := (bind m (fun x => k))
  (at level 10, x name, m at level 100, k at level 200).

(** [datetime.now()] *)
Definition now : Py datetime :=
  fun w => (Returned (clock w (ticks w)),
            World (files w) (clock w) (S (ticks w)) (backend w) (requests w)).

(** [path.exists()] *)
Definition path_exists (path : string) : Py bool :=
  fun w => (Returned (match files w !! path with Some _ => true | None => false end), w).

(** [with open(path) as f: json.load(f)] *)
Definition read_json (path : string) : Py json :=
  fun w => match files w !! path with
           | Some (Some v) => (Returned v, w)
           | Some None => (Raised JSONDecodeError, w)
           | None => (Raised FileNotFoundError, w)
           end.

(** [with open(path, 'w') as f: json.dump(v, f, indent=2)] *)
Definition write_json (path : string) (v : json) : Py unit :=
  fun w => (Returned tt,
            World (<[path := Some v]> (files w)) (clock w) (ticks w) (backend w) (requests w)).

(** [requests.get] / [requests.post]: the request is logged and the
    backend's answer to it is returned. *)
Definition http (r : request) : Py net_event :=
  fun w => (Returned (backend w (length (requests w))),
            World (files w) (clock w) (ticks w) (backend w) (requests w ++ [r])).

(** ** The program *)

(** [round(x, 1)] and true division, on exact rationals: the floats of the
    source are approximated by the rationals they stand for, so the value
    of ["progress_pct"] is an approximation of the float of the source. *)
Definition round_half_even (q : Q) : Z :=
  let n := Qnum q in
  let d := Zpos (Qden q) in
  let f := n / d in
  let r2 := 2 * (n mod d) in
  if r2 <? d then f
  else if d <? r2 then f + 1
  else if Z.even f then f else f + 1.

Definition round1 (q : Q) : Q := (inject_Z (round_half_even (q * 10)) / 10)%Q.

(** Whether the quotient of two ints, rounded to the nearest float, is
    within the float range: its magnitude is below [2^1024 - 2^970], half
    an ulp above the largest float. *)
Definition fits_float (a b : Z) : bool :=
  Z.abs a <? (2 ^ 1024 - 2 ^ 970) * Z.abs b.

(** [a / b] on ints raises for a zero divisor and for a quotient beyond
    the float range; the float it returns otherwise is stood for by the
    exact quotient. *)
Definition py_truediv (a b : Z) : outcome Q :=
  if b =? 0 then Raised ZeroDivisionError
  else if fits_float a b then Returned (inject_Z a / inject_Z b)%Q
  else Raised OverflowError.

Inductive tier : Type := Quick | Normal | Long | Max.

Definition TIMEOUTS (t : tier) : Z :=
  match t with
  | Quick => 30
  | Normal => 120
  | Long => 300
  | Max => 600
  end.

(** The result dictionary of [run_chunked_operation]. *)
Record chunk_result : Type := ChunkResult {
  completed : Z;
  remaining : Z;
  progress_pct : Q;
  output : json;
  success : json;
  can_continue : bool;
  next_command : option string
}.

(** Keyword arguments of a dict display: a later key overrides an earlier
    one in place. *)
Fixpoint dict_set (key : string) (v : json) (d : list (string * json)) : list (string * json) :=
  match d with
  | [] => [(key, v)]
  | (k, x) :: rest => if String.eqb k key then (k, v) :: rest else (k, x) :: dict_set key v rest
  end.

Section Agent.

Variable COLAB_URL : string.
Variable CHECKPOINT_DIR : string.

Definition get_checkpoint_path (operation : string) : Py string :=
  let* t := now in
  ret (CHECKPOINT_DIR +:+ "/" +:+ operation +:+ "_" +:+ ymd t +:+ ".json").

Definition save_checkpoint (operation : string) (data : json) : Py string :=
  let* path := get_checkpoint_path operation in
  let* t := now in
  let* _ := write_json path (JDict [("timestamp", JStr (iso t));
                               ("operation", JStr operation);
                               ("data", data)]) in
  ret path.

(** Python's [None] is [JNull]. *)
Definition load_checkpoint (operation : string) : Py json :=
  let* path := get_checkpoint_path operation in
  let* present := path_exists path in
  if present then read_json path else ret JNull.

Definition make_request (method endpoint : string) (timeout : Z) (json_body : option json)
  : Py json :=
  let url := COLAB_URL +:+ endpoint in
  let* ev := http (Request (if String.eqb method "GET" then GET else POST) url timeout json_body) in
  match ev with
  | NetResponse status_code text parsed =>
      if status_code =? 200 then
        match parsed with
        | inr data => ret (JDict [("success", JBool true); ("data", data)])
        | inl message => ret (JDict [("success", JBool false); ("error", JStr message)])
        end
      else
        ret (JDict [("success", JBool false);
                    ("error", JStr ("HTTP " +:+ str_int status_code));
                    ("body", JStr (substring 0 500 text))])
  | NetTimeout _ =>
      ret (JDict [("success", JBool false);
                  ("error", JStr "TIMEOUT");
                  ("suggestion", JStr ("Operation took longer than " +:+ str_int timeout +:+ "s"))])
  | NetConnectionError =>
      ret (JDict [("success", JBool false);
                  ("error", JStr "CONNECTION_FAILED");
                  ("url", JStr COLAB_URL)])
  | NetOther message =>
      ret (JDict [("success", JBool false); ("error", JStr message)])
  end.

(** Lines 316-318: where the previous batch stopped. *)
Definition resume_index (checkpoint : json) : outcome json :=
  if truthy checkpoint then
    match py_get checkpoint "data" (JDict []) with
    | Returned d => py_get d "completed" (JInt 0)
    | Raised e => Raised e
    end
  else Returned (JInt 0).

(** Lines 323-342: the code sent for one batch. *)
Definition full_code (setup_code loop_code : string) (start_idx : json) (end_idx : Z) : string :=
  if py_eq_int start_idx 0 then
    nl +:+ setup_code +:+ nl
    +:+ nl +:+ "# Chunked execution: iterations " +:+ py_str start_idx
    +:+ " to " +:+ str_int (end_idx - 1) +:+ nl
    +:+ "for i in range(" +:+ py_str start_idx +:+ ", " +:+ str_int end_idx +:+ "):" +:+ nl
    +:+ "    " +:+ loop_code +:+ nl
    +:+ nl +:+ "print(f" +:+ dquote +:+ "Completed iterations " +:+ py_str start_idx
    +:+ " to " +:+ str_int (end_idx - 1) +:+ dquote +:+ ")" +:+ nl
  else
    nl +:+ "# Resuming chunked execution: iterations " +:+ py_str start_idx
    +:+ " to " +:+ str_int (end_idx - 1) +:+ nl
    +:+ "for i in range(" +:+ py_str start_idx +:+ ", " +:+ str_int end_idx +:+ "):" +:+ nl
    +:+ "    " +:+ loop_code +:+ nl
    +:+ nl +:+ "print(f" +:+ dquote +:+ "Completed iterations " +:+ py_str start_idx
    +:+ " to " +:+ str_int (end_idx - 1) +:+ dquote +:+ ")" +:+ nl.

(** [result.get("data", {}).get("stdout", "")] *)
Definition batch_stdout (result : json) : outcome json :=
  match py_get result "data" (JDict []) with
  | Returned d => py_get d "stdout" (JStr "")
  | Raised e => Raised e
  end.

Definition run_chunked_operation (setup_code loop_code : string) (n_iterations batch_size : Z)
    (checkpoint_name : string) : Py chunk_result :=
  let* checkpoint := load_checkpoint checkpoint_name in
  let* start_idx := lift (resume_index checkpoint) in
  let* sum := lift (py_add_int start_idx batch_size) in
  let end_idx := Z.min sum n_iterations in
  let* result := make_request "POST" "/execute" (TIMEOUTS Long + 30)
              (Some (JDict [("code", JStr (full_code setup_code loop_code start_idx end_idx));
                            ("timeout", JInt (TIMEOUTS Long))])) in
  let* ok := lift (py_item result "success") in
  let* last_batch_output :=
    (if truthy ok then
       let* out := lift (batch_stdout result) in lift (py_slice_to 1000 out)
     else ret (JStr "")) in
  let* _ := save_checkpoint checkpoint_name
         (JDict [("completed", JInt end_idx);
                 ("total", JInt n_iterations);
                 ("last_batch_output", last_batch_output)]) in
  let* ratio := lift (py_truediv end_idx n_iterations) in
  let* ok' := lift (py_item result "success") in
  let* out := (if truthy ok' then lift (batch_stdout result)
          else lift (py_get result "error" JNull)) in
  let* ok'' := lift (py_item result "success") in
  ret {| completed := end_idx;
         remaining := n_iterations - end_idx;
         progress_pct := round1 (ratio * 100);
         output := out;
         success := ok'';
         can_continue := end_idx <? n_iterations;
         next_command :=
           if end_idx <? n_iterations then
             Some ("run_chunked_operation(..., checkpoint_name='" +:+ checkpoint_name +:+ "')")
           else None |}.

(** Binding of the arguments of a call: [batch_size] and [checkpoint_name]
    have defaults. *)
Definition call_run_chunked_operation (setup_code loop_code : string) (n_iterations : Z)
    (batch_size : option Z) (checkpoint_name : option string) : Py chunk_result :=
  run_chunked_operation setup_code loop_code n_iterations
    (default 10 batch_size) (default "chunked_op" checkpoint_name).

(** [{"exists": True, **checkpoint}] *)
Definition py_splat_onto (base : list (string * json)) (obj : json) : outcome json :=
  match obj with
  | JDict d => Returned (JDict (fold_left (fun acc kv => dict_set (fst kv) (snd kv) acc) d base))
  | _ => Raised TypeError
  end.

Definition get_checkpoint (operation : string) : Py json :=
  let* checkpoint := load_checkpoint operation in
  if truthy checkpoint then
    lift (py_splat_onto [("exists", JBool true)] checkpoint)
  else
    ret (JDict [("exists", JBool false);
                ("message", JStr ("No checkpoint found for '" +:+ operation +:+ "'"))]).

End Agent.

(** ** The remaining capabilities *)

(** [obj[key] = v] for a string key: only a dict accepts it. *)
Definition py_setitem (obj : json) (key : string) (v : json) : outcome json :=
  match obj with
  | JDict d => Returned (JDict (dict_set key v d))
  | _ => Raised TypeError
  end.

(** [obj < n] for an int [n]. *)
Definition py_lt_int (obj : json) (n : Z) : outcome bool :=
  match py_int obj with
  | Some z => Returned (z <? n)
  | None => Raised TypeError
  end.

(** [f"{obj:.1f}"] for an object that stands for an integer. *)
Definition py_format_1f (obj : json) : string :=
  match py_int obj with
  | Some z => str_int z +:+ ".0"
  | None => ""
  end.

Section Tools.

Variable COLAB_URL : string.
Variable CHECKPOINT_DIR : string.

Definition check_colab_connection : Py json :=
  let* result := make_request COLAB_URL "GET" "/health" (TIMEOUTS Quick) None in
  let* ok := lift (py_item result "success") in
  if truthy ok then
    let* data := lift (py_item result "data") in
    let* data := lift (py_setitem data "status" (JStr "connected")) in
    let* data := lift (py_setitem data "colab_url" (JStr COLAB_URL)) in
    ret data
  else
    let* err := lift (py_get result "error" JNull) in
    ret (JDict [("status", JStr "disconnected");
                ("error", err);
                ("colab_url", JStr COLAB_URL);
                ("suggestion",
                 JStr "Check if Colab notebook is running and ngrok URL is correct")]).

Definition probe_colab_environment : Py json :=
  let* result := make_request COLAB_URL "GET" "/probe" (TIMEOUTS Quick) None in
  let* ok := lift (py_item result "success") in
  if truthy ok then
    let* data := lift (py_item result "data") in
    let* gpu := lift (py_get data "gpu" (JDict [])) in
    let* compute := lift (py_get data "compute" (JDict [])) in
    let* ram_gb := lift (py_get compute "ram_available_gb" (JInt 0)) in
    let recommendations : list json := [] in
    let* available := lift (py_get gpu "available" JNull) in
    let recommendations :=
      if truthy available then recommendations
      else (recommendations
            ++ [JStr "No GPU - use classical ML only, avoid deep learning"])%list in
    let* low := lift (py_lt_int ram_gb 4) in
    let recommendations :=
      if low then
        (recommendations
         ++ [JStr ("Low RAM (" +:+ py_format_1f ram_gb
                   +:+ "GB) - sample datasets, use smaller batches")])%list
      else recommendations in
    let* limits := lift (py_get data "limits" (JDict [])) in
    let* minutes := lift (py_get limits "estimated_session_minutes_remaining" (JInt 90)) in
    let* ending := lift (py_lt_int minutes 30) in
    let recommendations :=
      if ending then
        (recommendations ++ [JStr "Session ending soon - save checkpoints now!"])%list
      else recommendations in
    let* data := lift (py_setitem data "recommendations" (JList recommendations)) in
    ret data
  else ret result.

Definition run_code_quick (code : string) : Py json :=
  let* result := make_request COLAB_URL "POST" "/execute" (TIMEOUTS Normal + 30)
                   (Some (JDict [("code", JStr code); ("timeout", JInt (TIMEOUTS Normal))])) in
  let* ok := lift (py_item result "success") in
  if truthy ok then lift (py_item result "data") else ret result.

(** An omitted [checkpoint_name] is the empty string. *)
Definition run_code_long (code : string) (checkpoint_name : option string) : Py json :=
  let checkpoint_name := default "" checkpoint_name in
  let* result := make_request COLAB_URL "POST" "/execute" (TIMEOUTS Max + 60)
                   (Some (JDict [("code", JStr code); ("timeout", JInt (TIMEOUTS Max))])) in
  let* ok := lift (py_item result "success") in
  let* response := (if truthy ok then lift (py_item result "data") else ret result) in
  let* wanted :=
    (if truthy (JStr checkpoint_name) then
       let* ok' := lift (py_item result "success") in ret (truthy ok')
     else ret false) in
  if wanted then
    let* out := lift (py_get response "stdout" (JStr "")) in
    let* out_head := lift (py_slice_to 2000 out) in
    let* execution_time := lift (py_get response "execution_time_sec" JNull) in
    let* t := now in
    let* checkpoint_path :=
      save_checkpoint CHECKPOINT_DIR checkpoint_name
        (JDict [("code", JStr (substring 0 500 code));
                ("stdout", out_head);
                ("execution_time", execution_time);
                ("completed_at", JStr (iso t))]) in
    lift (py_setitem response "checkpoint_saved" (JStr checkpoint_path))
  else ret response.

(** An omitted [path] is ["/content"]. *)
Definition list_colab_files (path : option string) : Py json :=
  let path := default "/content" path in
  let* result := make_request COLAB_URL "GET" ("/files/list?path=" +:+ path)
                   (TIMEOUTS Quick) None in
  let* ok := lift (py_item result "success") in
  if truthy ok then lift (py_item result "data") else ret result.

Definition cleanup_colab : Py json :=
  let* result := make_request COLAB_URL "POST" "/cleanup" (TIMEOUTS Quick) None in
  let* ok := lift (py_item result "success") in
  if truthy ok then lift (py_item result "data") else ret result.

Definition list_colab_variables : Py json :=
  let* result := make_request COLAB_URL "GET" "/variables" (TIMEOUTS Quick) None in
  let* ok := lift (py_item result "success") in
  if truthy ok then lift (py_item result "data") else ret result.

End Tools.

(** ** Functional reading of the program

    The pure functions below name the values that the monadic code
    computes; the lemmas of the next section relate them to the code. *)

Definition checkpoint_file (CHECKPOINT_DIR operation day : string) : string :=
  CHECKPOINT_DIR +:+ "/" +:+ operation +:+ "_" +:+ day +:+ ".json".

Definition checkpoint_record (stamp operation : string) (data : json) : json :=
  JDict [("timestamp", JStr stamp); ("operation", JStr operation); ("data", data)].

Definition progress_data (end_idx n_iterations : Z) (excerpt : json) : json :=
  JDict [("completed", JInt end_idx); ("total", JInt n_iterations);
         ("last_batch_output", excerpt)].

Definition execute_request (COLAB_URL code : string) : request :=
  Request POST (COLAB_URL +:+ "/execute") (TIMEOUTS Long + 30)
    (Some (JDict [("code", JStr code); ("timeout", JInt (TIMEOUTS Long))])).

(** The dictionary [make_request] builds for an event. *)
Definition reply_dict (COLAB_URL : string) (timeout : Z) (ev : net_event) : json :=
  match ev with
  | NetResponse status_code text parsed =>
      if status_code =? 200 then
        match parsed with
        | inr data => JDict [("success", JBool true); ("data", data)]
        | inl message => JDict [("success", JBool false); ("error", JStr message)]
        end
      else
        JDict [("success", JBool false);
               ("error", JStr ("HTTP " +:+ str_int status_code));
               ("body", JStr (substring 0 500 text))]
  | NetTimeout _ =>
      JDict [("success", JBool false);
             ("error", JStr "TIMEOUT");
             ("suggestion", JStr ("Operation took longer than " +:+ str_int timeout +:+ "s"))]
  | NetConnectionError =>
      JDict [("success", JBool false);
             ("error", JStr "CONNECTION_FAILED");
             ("url", JStr COLAB_URL)]
  | NetOther message =>
      JDict [("success", JBool false); ("error", JStr message)]
  end.

(** Whether the dispatch succeeded: status 200 with a body that parses. *)
Definition reply_success (ev : net_event) : bool :=
  match ev with
  | NetResponse status_code _ (inr _) => status_code =? 200
  | _ => false
  end.

(** What [load_checkpoint] returns for the content of today's file. *)
Definition loaded (f : option (option json)) : outcome json :=
  match f with
  | None => Returned JNull
  | Some None => Raised JSONDecodeError
  | Some (Some v) => Returned v
  end.

(** The object bound to [start_idx] for the content of today's file. *)
Definition start_of (f : option (option json)) : outcome json :=
  match loaded f with
  | Returned checkpoint => resume_index checkpoint
  | Raised e => Raised e
  end.

(** The integer offset at which a call resumes, when there is one. *)
Definition resume_offset (f : option (option json)) : option Z :=
  match start_of f with
  | Returned v => py_int v
  | Raised _ => None
  end.

(** The value stored under ["last_batch_output"] (line 354). *)
Definition last_batch_output_of (result : json) : outcome json :=
  match py_item result "success" with
  | Returned ok =>
      if truthy ok then
        match batch_stdout result with
        | Returned out => py_slice_to 1000 out
        | Raised e => Raised e
        end
      else Returned (JStr "")
  | Raised e => Raised e
  end.

(** The value returned under ["output"] (line 361). *)
Definition output_of (result : json) : outcome json :=
  match py_item result "success" with
  | Returned ok =>
      if truthy ok then batch_stdout result else py_get result "error" JNull
  | Raised e => Raised e
  end.

(** The dictionary returned at lines 357-365. *)
Definition chunk_return (n_iterations end_idx : Z) (checkpoint_name : string) (result : json)
  : outcome chunk_result :=
  match py_truediv end_idx n_iterations with
  | Raised e => Raised e
  | Returned ratio =>
      match output_of result with
      | Raised e => Raised e
      | Returned out =>
          match py_item result "success" with
          | Raised e => Raised e
          | Returned ok =>
              Returned {| completed := end_idx;
                          remaining := n_iterations - end_idx;
                          progress_pct := round1 (ratio * 100);
                          output := out;
                          success := ok;
                          can_continue := end_idx <? n_iterations;
                          next_command :=
                            if end_idx <? n_iterations then
                              Some ("run_chunked_operation(..., checkpoint_name='"
                                    +:+ checkpoint_name +:+ "')")
                            else None |}
          end
      end
  end.

(** The world after [k] more readings of the clock. *)
Definition advance (k : nat) (w : world) : world :=
  World (files w) (clock w) (k + ticks w) (backend w) (requests w).


(** Computations that send nothing. *)
Definition keeps_requests {A} (m : Py A) : Prop :=
  forall w, requests (snd (m w)) = requests w.

(** A reply after which line 354 evaluates: any failure of the dispatch, or
    a 200 reply whose body is an object with no ["stdout"] or with one that
    can be sliced. *)
Definition reply_usable (ev : net_event) : bool :=
  match ev with
  | NetResponse status_code _ (inr data) =>
      if status_code =? 200 then
        match data with
        | JDict d =>
            match dict_get "stdout" d with
            | None | Some (JStr _) | Some (JList _) => true
            | Some _ => false
            end
        | _ => false
        end
      else true
  | _ => true
  end.

(** Every reading of the clock falls on [day]. *)
Definition same_day (w : world) (day : string) : Prop :=
  forall k, ymd (clock w k) = day.

(** Every reply of the backend is usable. *)
Definition usable_backend (w : world) : Prop :=
  forall k, reply_usable (backend w k) = true.

(** Worlds used to run the program on concrete inputs. *)
Definition new_year : datetime := Datetime "20260101" "2026-01-01T09:00:00".

Definition stdout_reply (s : string) : net_event :=
  NetResponse 200 "" (inr (JDict [("stdout", JStr s)])).

Definition world_of (fs : gmap string (option json)) (ev : net_event) : world :=
  World fs (fun _ => new_year) 0 (fun _ => ev) [].

(** The loop that both templates of [full_code] end with. *)
Definition loop_block (loop_code : string) (start_idx : json) (end_idx : Z) : string :=
  "for i in range(" +:+ py_str start_idx +:+ ", " +:+ str_int end_idx +:+ "):" +:+ nl
  +:+ "    " +:+ loop_code +:+ nl
  +:+ nl +:+ "print(f" +:+ dquote +:+ "Completed iterations " +:+ py_str start_idx
  +:+ " to " +:+ str_int (end_idx - 1) +:+ dquote +:+ ")" +:+ nl.

Definition example_url : string := "https://colab.example".
Definition example_dir : string := "/ckpt".

(** A checkpoint directory in which job ["job"] has finished its 10
    iterations, and one whose file for ["job"] cannot be parsed. *)
Definition finished_job : gmap string (option json) :=
  {[ checkpoint_file example_dir "job" "20260101" :=
       Some (checkpoint_record "2026-01-01T08:00:00" "job" (progress_data 10 10 (JStr ""))) ]}.

Definition garbled_job : gmap string (option json) :=
  {[ checkpoint_file example_dir "job" "20260101" := None ]}.

(** The example of the docstring of [run_chunked_operation]. *)
Definition docstring_setup : string := "import os; files = os.listdir('/content/data')".
Definition docstring_loop : string := "print(f'Processing {i}: {files[{i}]}')".

(** A second day, and a clock that moves on to it after [k] readings. *)
Definition next_day : datetime := Datetime "20260102" "2026-01-02T00:00:01".

Definition rollover_clock (k : nat) : nat -> datetime :=
  fun i => if (i <? k)%nat then new_year else next_day.

Definition world_at (fs : gmap string (option json)) (clk : nat -> datetime)
    (ev : net_event) : world :=
  World fs clk 0 (fun _ => ev) [].

(** The keys of a dict, in order. *)
Definition dict_keys (d : list (string * json)) : list string := map fst d.

(** The document a reply carries, when its body parses. *)
Definition reply_body (ev : net_event) : option json :=
  match ev with
  | NetResponse _ _ (inr data) => Some data
  | _ => None
  end.

(** A checkpoint directory whose record for ["job"] has a string where the
    offset should be. *)
Definition mistyped_job : gmap string (option json) :=
  {[ checkpoint_file example_dir "job" "20260101" :=
       Some (checkpoint_record "2026-01-01T08:00:00" "job"
               (JDict [("completed", JStr "10"); ("total", JInt 25)])) ]}.

(** What the pass-through capabilities return for an event: the body of a
    successful reply, the dictionary of [make_request] otherwise. *)
Definition passed_through (COLAB_URL : string) (timeout : Z) (ev : net_event) : json :=
  match ev with
  | NetResponse status_code _ (inr data) =>
      if status_code =? 200 then data else reply_dict COLAB_URL timeout ev
  | _ => reply_dict COLAB_URL timeout ev
  end.

(** The three recommendations of [probe_colab_environment]. *)
Definition no_gpu_advice : json :=
  JStr "No GPU - use classical ML only, avoid deep learning".
Definition low_ram_advice (ram_gb : Z) : json :=
  JStr ("Low RAM (" +:+ str_int ram_gb +:+ ".0GB) - sample datasets, use smaller batches").
Definition session_advice : json :=
  JStr "Session ending soon - save checkpoints now!".

(** The request of [run_code_long] and the payload of its checkpoint. *)
Definition long_request (COLAB_URL code : string) : request :=
  Request POST (COLAB_URL +:+ "/execute") (TIMEOUTS Max + 60)
    (Some (JDict [("code", JStr code); ("timeout", JInt (TIMEOUTS Max))])).

Definition long_run_data (code out : string) (execution_time : json) (completed_at : string)
  : json :=
  JDict [("code", JStr (substring 0 500 code));
         ("stdout", JStr (substring 0 2000 out));
         ("execution_time", execution_time);
         ("completed_at", JStr completed_at)].

(** More example data: a checkpoint file that holds a list, the result of
    the first call of a 25-iteration job, and a healthy probe payload. *)
Definition listed_job : gmap string (option json) :=
  {[ checkpoint_file example_dir "job" "20260101" := Some (JList [JInt 1]) ]}.

Definition first_result : chunk_result :=
  match fst (run_chunked_operation example_url example_dir "x=1" "print(i)" 25 10 "job"
               (world_of ∅ (stdout_reply "ok"))) with
  | Returned r => r
  | Raised _ => ChunkResult 0 0 0 JNull JNull false None
  end.

Definition healthy_gpu : list (string * json) := [("available", JBool true)].
Definition healthy_compute : list (string * json) := [("ram_available_gb", JInt 12)].
Definition healthy_limits : list (string * json) :=
  [("estimated_session_minutes_remaining", JInt 20)].
Definition healthy_probe : list (string * json) :=
  [("gpu", JDict healthy_gpu); ("compute", JDict healthy_compute);
   ("limits", JDict healthy_limits)].

(** An operation name without a path separator. *)
Fixpoint plain_name (s : string) : bool :=
  match s with
  | EmptyString => true
  | String c rest => negb (Ascii.eqb c "/") && plain_name rest
  end.

(** A value with which [+ batch_size] raises whatever else happens: not a
    number at all. *)
Definition non_numeric (v : json) : bool :=
  match v with
  | JNull | JStr _ | JList _ | JDict _ => true
  | JBool _ | JInt _ => false
  end.

(** A text without the NUL character, which no path can hold. *)
Fixpoint nul_free (s : string) : bool :=
  match s with
  | EmptyString => true
  | String c rest => negb (Ascii.eqb c "000") && nul_free rest
  end.

(** *** The directories of the host

    [save_checkpoint] takes the write for granted.  [save_checkpoint_in] is
    the same function on a host where [dirs] are the paths that name an
    existing directory: [open(path, 'w')] refuses a path that holds a NUL
    character, creates a file only in a directory that exists, and raises
    otherwise, before the timestamp is read. *)




(** ** Stepping lemmas *)

(** [str] is injective on ints, and a last character can be cancelled. *)
Lemma str_int_inj a b : str_int a = str_int b -> a = b.
Proof.
  unfold str_int. intros H.
  assert (Hp : forall z, NilZero.int_of_string (NilZero.string_of_int (Z.to_int z))
                         = Some (Z.to_int z)).
  { intros z. apply NilZero.isi; destruct z; cbn; try discriminate;
      intros [= E]; now apply Unsigned.to_uint_nonnil in E. }
  apply DecimalZ.to_int_inj.
  pose proof (Hp a) as Ha. rewrite H, Hp in Ha. now injection Ha.
Qed.

Lemma append_cancel_last x y c : x +:+ String c "" = y +:+ String c "" -> x = y.
Proof.
  revert y. induction x as [|a x IH]; intros [|a' y]; cbn; intros H.
  - reflexivity.
  - injection H as _ H. now destruct y.
  - injection H as _ H. now destruct x.
  - injection H as -> H. f_equal. now apply IH.
Qed.

Lemma append_assoc_r x y z : (x +:+ y) +:+ z = x +:+ (y +:+ z).
Proof.
  induction x as [|a x IH]; [reflexivity|].
  change (String a ((x +:+ y) +:+ z) = String a (x +:+ (y +:+ z))). now f_equal.
Qed.

Lemma bind_returned {A B} (m : Py A) (k : A -> Py B) w a w' :
  m w = (Returned a, w') -> bind m k w = k a w'.
Proof. intros H. unfold bind. now rewrite H. Qed.

Lemma bind_lift {A B} (o : outcome A) (k : A -> Py B) w :
  bind (lift o) k w = match o with Returned a => k a w | Raised e => (Raised e, w) end.
Proof. unfold bind, lift. now destruct o. Qed.

Lemma keeps_requests_ret {A} (a : A) : keeps_requests (ret a).
Proof. now intros w. Qed.

Lemma keeps_requests_lift {A} (o : outcome A) : keeps_requests (lift o).
Proof. now intros w. Qed.

Lemma keeps_requests_bind {A B} (m : Py A) (k : A -> Py B) :
  keeps_requests m -> (forall a, keeps_requests (k a)) -> keeps_requests (bind m k).
Proof.
  intros Hm Hk w. unfold bind. specialize (Hm w).
  destruct (m w) as [[a|e] w']; cbn [snd] in *; [rewrite Hk|]; exact Hm.
Qed.

Lemma keeps_requests_if {A} (c : bool) (m1 m2 : Py A) :
  keeps_requests m1 -> keeps_requests m2 -> keeps_requests (if c then m1 else m2).
Proof. now destruct c. Qed.

Create HintDb quiet.
#[export] Hint Resolve keeps_requests_ret keeps_requests_lift keeps_requests_if : quiet.
#[export] Hint Extern 2 (keeps_requests (bind _ _)) =>
  apply keeps_requests_bind; [|intro] : quiet.

Section Facts.

Variable COLAB_URL : string.
Variable CHECKPOINT_DIR : string.

Lemma get_checkpoint_path_eq operation w :
  get_checkpoint_path CHECKPOINT_DIR operation w =
  (Returned (checkpoint_file CHECKPOINT_DIR operation (ymd (clock w (ticks w)))), advance 1 w).
Proof. reflexivity. Qed.

Lemma load_checkpoint_eq operation w :
  load_checkpoint CHECKPOINT_DIR operation w =
  (loaded (files w !! checkpoint_file CHECKPOINT_DIR operation (ymd (clock w (ticks w)))),
   advance 1 w).
Proof.
  unfold load_checkpoint.
  rewrite (bind_returned _ _ _ _ _ (get_checkpoint_path_eq operation w)).
  unfold bind, path_exists, read_json, ret, loaded. cbv beta iota.
  change (files (advance 1 w)) with (files w).
  destruct (files w !! _) as [[v|]|] eqn:E; cbv beta iota;
    change (files (advance 1 w)) with (files w); rewrite ?E; reflexivity.
Qed.

Lemma save_checkpoint_eq operation data w :
  save_checkpoint CHECKPOINT_DIR operation data w =
  (Returned (checkpoint_file CHECKPOINT_DIR operation (ymd (clock w (ticks w)))),
   World (<[checkpoint_file CHECKPOINT_DIR operation (ymd (clock w (ticks w))) :=
              Some (checkpoint_record (iso (clock w (S (ticks w)))) operation data)]> (files w))
         (clock w) (2 + ticks w) (backend w) (requests w)).
Proof. reflexivity. Qed.

Lemma make_request_eq method endpoint timeout body w :
  make_request COLAB_URL method endpoint timeout body w =
  (Returned (reply_dict COLAB_URL timeout (backend w (length (requests w)))),
   World (files w) (clock w) (ticks w) (backend w)
         (requests w ++ [Request (if String.eqb method "GET" then GET else POST)
                                 (COLAB_URL +:+ endpoint) timeout body])).
Proof.
  unfold make_request, bind, http, reply_dict, ret.
  destruct (backend w (length (requests w))) as [code text [msg|data]| | |]; try reflexivity;
    destruct (code =? 200); reflexivity.
Qed.

(** One call, when the checkpoint of the day yields an integer offset and
    the reply lets line 354 evaluate: the request sent, the checkpoint
    written and the value returned. *)
Lemma run_chunked_operation_eq setup loop n b name w start_idx s excerpt :
  start_of (files w !! checkpoint_file CHECKPOINT_DIR name (ymd (clock w (ticks w))))
    = Returned start_idx ->
  py_int start_idx = Some s ->
  last_batch_output_of
    (reply_dict COLAB_URL (TIMEOUTS Long + 30) (backend w (length (requests w))))
    = Returned excerpt ->
  run_chunked_operation COLAB_URL CHECKPOINT_DIR setup loop n b name w =
  (chunk_return n (Z.min (s + b) n) name
     (reply_dict COLAB_URL (TIMEOUTS Long + 30) (backend w (length (requests w)))),
   World (<[checkpoint_file CHECKPOINT_DIR name (ymd (clock w (S (ticks w)))) :=
              Some (checkpoint_record (iso (clock w (S (S (ticks w))))) name
                      (progress_data (Z.min (s + b) n) n excerpt))]> (files w))
         (clock w) (3 + ticks w) (backend w)
         (requests w ++ [execute_request COLAB_URL
                           (full_code setup loop start_idx (Z.min (s + b) n))])).
Proof.
  intros Hstart Hint Hex.
  unfold run_chunked_operation.
  unfold start_of in Hstart.
  destruct (loaded _) as [ck|] eqn:Hload; [|discriminate].
  pose proof (load_checkpoint_eq name w) as HL. rewrite Hload in HL.
  rewrite (bind_returned _ _ _ _ _ HL).
  rewrite bind_lift, Hstart.
  rewrite bind_lift. unfold py_add_int at 1. rewrite Hint.
  rewrite (bind_returned _ _ _ _ _ (make_request_eq _ _ _ _ _)).
  cbn [advance files clock ticks backend requests Nat.add].
  set (result := reply_dict _ _ _) in *.
  rewrite bind_lift.
  unfold chunk_return, output_of.
  unfold last_batch_output_of in Hex.
  destruct (py_item result "success") as [ok|] eqn:Hok; [|discriminate].
  match goal with |- bind _ _ ?x = _ => set (w1 := x) end.
  assert (Hlbo : (if truthy ok
                  then let* out := lift (batch_stdout result) in lift (py_slice_to 1000 out)
                  else ret (JStr "")) w1 = (Returned excerpt, w1)).
  { destruct (truthy ok).
    - rewrite bind_lift. destruct (batch_stdout result); [|discriminate].
      unfold lift. now rewrite Hex.
    - unfold ret. now injection Hex as ->. }
  rewrite (bind_returned _ _ _ _ _ Hlbo).
  rewrite (bind_returned _ _ _ _ _ (save_checkpoint_eq _ _ _)).
  subst w1. cbn [advance files clock ticks backend requests Nat.add].
  rewrite bind_lift.
  destruct (py_truediv _ n) as [ratio|]; [|reflexivity].
  rewrite bind_lift.
  destruct (truthy ok).
  - rewrite bind_lift. destruct (batch_stdout result); reflexivity.
  - rewrite bind_lift. destruct (py_get result "error" JNull); reflexivity.
Qed.

Lemma keeps_requests_save operation data :
  keeps_requests (save_checkpoint CHECKPOINT_DIR operation data).
Proof. now intros w. Qed.

Lemma keeps_requests_load operation :
  keeps_requests (load_checkpoint CHECKPOINT_DIR operation).
Proof. intros w. now rewrite load_checkpoint_eq. Qed.

Hint Resolve keeps_requests_save keeps_requests_load : quiet.

(** Exactly one request is sent as soon as the checkpoint of the day yields
    an integer offset, whatever the backend answers. *)
Lemma run_chunked_operation_requests setup loop n b name w start_idx s :
  start_of (files w !! checkpoint_file CHECKPOINT_DIR name (ymd (clock w (ticks w))))
    = Returned start_idx ->
  py_int start_idx = Some s ->
  requests (snd (run_chunked_operation COLAB_URL CHECKPOINT_DIR setup loop n b name w)) =
  (requests w ++
     [execute_request COLAB_URL (full_code setup loop start_idx (Z.min (s + b) n))])%list.
Proof.
  intros Hstart Hint.
  unfold run_chunked_operation.
  unfold start_of in Hstart.
  destruct (loaded _) as [ck|] eqn:Hload; [|discriminate].
  pose proof (load_checkpoint_eq name w) as HL. rewrite Hload in HL.
  rewrite (bind_returned _ _ _ _ _ HL).
  rewrite bind_lift, Hstart.
  rewrite bind_lift. unfold py_add_int at 1. rewrite Hint.
  rewrite (bind_returned _ _ _ _ _ (make_request_eq _ _ _ _ _)).
  match goal with |- requests (snd (?m ?x)) = _ =>
    assert (Hk : keeps_requests m) by auto 20 with quiet; rewrite (Hk x) end.
  reflexivity.
Qed.

Lemma reply_usable_excerpt timeout ev :
  reply_usable ev = true ->
  exists excerpt,
    last_batch_output_of (reply_dict COLAB_URL timeout ev) = Returned excerpt.
Proof.
  destruct ev as [code text [msg|data]| | |]; cbn; intros H; eauto;
    destruct (code =? 200); cbn; eauto.
  destruct data as [| | | | |d]; try discriminate.
  cbn. destruct (dict_get "stdout" d) as [[]|]; try discriminate; cbn; eauto.
Qed.



(** A saved progress record makes the next call of the day resume at the
    recorded offset. *)
Lemma start_of_saved stamp name e n excerpt :
  start_of (Some (Some (checkpoint_record stamp name (progress_data e n excerpt))))
  = Returned (JInt e).
Proof. reflexivity. Qed.

Lemma float_bound_above_one : 1 < 2 ^ 1024 - 2 ^ 970.
Proof. vm_compute. reflexivity. Qed.

(** A quotient of magnitude at most 1 is within the float range. *)
Lemma fits_float_within e n : n <> 0 -> Z.abs e <= Z.abs n -> fits_float e n = true.
Proof.
  intros Hn He. unfold fits_float. apply Z.ltb_lt.
  pose proof float_bound_above_one as Hb.
  set (bound := 2 ^ 1024 - 2 ^ 970) in *. nia.
Qed.

Lemma chunk_return_ok timeout ev n e name excerpt :
  n <> 0 ->
  fits_float e n = true ->
  last_batch_output_of (reply_dict COLAB_URL timeout ev) = Returned excerpt ->
  exists out,
    chunk_return n e name (reply_dict COLAB_URL timeout ev) =
    Returned {| completed := e;
                remaining := n - e;
                progress_pct := round1 (inject_Z e / inject_Z n * 100);
                output := out;
                success := JBool (reply_success ev);
                can_continue := e <? n;
                next_command :=
                  if e <? n then
                    Some ("run_chunked_operation(..., checkpoint_name='" +:+ name +:+ "')")
                  else None |}.
Proof.
  intros Hn Hfit. unfold chunk_return, py_truediv. rewrite Hfit.
  destruct (Z.eqb_spec n 0) as [|_]; [contradiction|].
  destruct ev as [code text [msg|data]| | |]; cbn; eauto;
    destruct (code =? 200); cbn; eauto.
  unfold batch_stdout. cbn. destruct (py_get data "stdout" (JStr "")); [eauto|discriminate].
Qed.


(** One call on a given day, with a usable reply. *)
Lemma run_chunked_operation_step setup loop n b name day w start_idx s :
  same_day w day ->
  start_of (files w !! checkpoint_file CHECKPOINT_DIR name day) = Returned start_idx ->
  py_int start_idx = Some s ->
  reply_usable (backend w (length (requests w))) = true ->
  exists excerpt,
    run_chunked_operation COLAB_URL CHECKPOINT_DIR setup loop n b name w =
    (chunk_return n (Z.min (s + b) n) name
       (reply_dict COLAB_URL (TIMEOUTS Long + 30) (backend w (length (requests w)))),
     World (<[checkpoint_file CHECKPOINT_DIR name day :=
                Some (checkpoint_record (iso (clock w (S (S (ticks w))))) name
                        (progress_data (Z.min (s + b) n) n excerpt))]> (files w))
           (clock w) (3 + ticks w) (backend w)
           (requests w ++ [execute_request COLAB_URL
                             (full_code setup loop start_idx (Z.min (s + b) n))])).
Proof.
  intros Hday Hstart Hint Hev.
  destruct (reply_usable_excerpt (TIMEOUTS Long + 30) _ Hev) as [excerpt Hex].
  exists excerpt.
  rewrite <- (Hday (ticks w)) in Hstart.
  rewrite (run_chunked_operation_eq setup loop n b name w start_idx s excerpt Hstart Hint Hex).
  now rewrite (Hday (S (ticks w))).
Qed.


(** Whatever the arguments, [loop_code] is pasted once, as it is, between
    a prefix and a suffix that do not depend on it. *)
Lemma full_code_loop_verbatim setup start_idx end_idx :
  exists pre post, forall loop,
    full_code setup loop start_idx end_idx = pre +:+ loop +:+ post.
Proof.
  unfold full_code. destruct (py_eq_int start_idx 0).
  - exists (nl +:+ setup +:+ nl
            +:+ nl +:+ "# Chunked execution: iterations " +:+ py_str start_idx
            +:+ " to " +:+ str_int (end_idx - 1) +:+ nl
            +:+ "for i in range(" +:+ py_str start_idx +:+ ", " +:+ str_int end_idx
            +:+ "):" +:+ nl +:+ "    ").
    eexists. intros loop. rewrite !append_assoc_r. reflexivity.
  - exists (nl +:+ "# Resuming chunked execution: iterations " +:+ py_str start_idx
            +:+ " to " +:+ str_int (end_idx - 1) +:+ nl
            +:+ "for i in range(" +:+ py_str start_idx +:+ ", " +:+ str_int end_idx
            +:+ "):" +:+ nl +:+ "    ").
    eexists. intros loop. rewrite !append_assoc_r. reflexivity.
Qed.

(** With a total of 0 the call raises after the checkpoint has been
    written. *)
Lemma run_chunked_operation_zero_total setup loop b name day w start_idx s :
  same_day w day ->
  start_of (files w !! checkpoint_file CHECKPOINT_DIR name day) = Returned start_idx ->
  py_int start_idx = Some s ->
  reply_usable (backend w (length (requests w))) = true ->
  fst (run_chunked_operation COLAB_URL CHECKPOINT_DIR setup loop 0 b name w)
  = Raised ZeroDivisionError.
Proof.
  intros Hday Hstart Hint Hus.
  destruct (run_chunked_operation_step setup loop 0 b name day w start_idx s
              Hday Hstart Hint Hus) as [excerpt Hrun].
  now rewrite Hrun.
Qed.

(** ** The checkpoint store *)








(** ** The transport dispatcher *)

(** C9: a dispatch that times out, after whatever time has elapsed, is
    classified as ["TIMEOUT"] and its result names the timeout passed to the
    call, which is also the deadline set on the request that was sent; the
    result of a timed-out dispatch with another deadline is different. *)
Theorem C9_timeout_names_configured_deadline method endpoint timeout body w elapsed :
  backend w (length (requests w)) = NetTimeout elapsed ->
  fst (make_request COLAB_URL method endpoint timeout body w) =
    Returned (JDict [("success", JBool false);
                     ("error", JStr "TIMEOUT");
                     ("suggestion",
                      JStr ("Operation took longer than " +:+ str_int timeout +:+ "s"))])
  /\ (exists r, requests (snd (make_request COLAB_URL method endpoint timeout body w))
                = (requests w ++ [r])%list
                /\ req_timeout r = timeout)
  /\ (forall timeout' w' elapsed',
        backend w' (length (requests w')) = NetTimeout elapsed' ->
        fst (make_request COLAB_URL method endpoint timeout' body w')
        = fst (make_request COLAB_URL method endpoint timeout body w) ->
        timeout' = timeout).
Proof.
  intros Hev. rewrite make_request_eq. cbn [fst snd requests]. rewrite Hev.
  split; [reflexivity|]. split; [eexists; split; reflexivity|].
  intros timeout' w' elapsed' Hev' Heq.
  rewrite make_request_eq in Heq. cbn [fst] in Heq. rewrite Hev' in Heq.
  cbn in Heq. injection Heq as Heq.
  now apply append_cancel_last, str_int_inj in Heq.
Qed.

(** ** The chunked execution engine: the code of a batch *)

(** C8: the code dispatched for a batch starts with [setup_code], placed
    before the iteration range, when the resume offset is 0; for any other
    offset it is the resume template, in which [setup_code] does not
    occur. *)
Theorem C8_setup_code_iff_first_batch setup loop n b name w start_idx s :
  start_of (files w !! checkpoint_file CHECKPOINT_DIR name (ymd (clock w (ticks w))))
    = Returned start_idx ->
  py_int start_idx = Some s ->
  exists code,
    requests (snd (run_chunked_operation COLAB_URL CHECKPOINT_DIR setup loop n b name w))
      = (requests w ++ [execute_request COLAB_URL code])%list
    /\ (s = 0 ->
        code = nl +:+ setup +:+ nl
               +:+ nl +:+ "# Chunked execution: iterations " +:+ py_str start_idx
               +:+ " to " +:+ str_int (Z.min (s + b) n - 1) +:+ nl
               +:+ loop_block loop start_idx (Z.min (s + b) n))
    /\ (s <> 0 ->
        code = nl +:+ "# Resuming chunked execution: iterations " +:+ py_str start_idx
               +:+ " to " +:+ str_int (Z.min (s + b) n - 1) +:+ nl
               +:+ loop_block loop start_idx (Z.min (s + b) n)).
Proof.
  intros Hstart Hint.
  exists (full_code setup loop start_idx (Z.min (s + b) n)).
  split; [now apply run_chunked_operation_requests|].
  unfold full_code, py_eq_int. rewrite Hint.
  destruct (Z.eqb_spec s 0) as [Hs|Hs]; split; intros Hs'; try contradiction; reflexivity.
Qed.

(** ** The chunked execution engine: progress *)




(** C3 (amended): when the loaded checkpoint records [completed >=
    n_iterations] (and [batch_size >= 0], [n_iterations <> 0]), the call
    still sends one request, whose loop ranges over the empty
    [range(s, n_iterations)]; it returns [completed = n_iterations],
    [remaining = 0], [can_continue = false] and no next command, and a
    second call sends one more request and returns the same values. *)
Theorem C3_resume_after_final_batch setup loop n b name day w start_idx s :
  same_day w day -> usable_backend w ->
  start_of (files w !! checkpoint_file CHECKPOINT_DIR name day) = Returned start_idx ->
  py_int start_idx = Some s ->
  n <= s -> 0 <= b -> n <> 0 ->
  let run1 := run_chunked_operation COLAB_URL CHECKPOINT_DIR setup loop n b name w in
  let run2 := run_chunked_operation COLAB_URL CHECKPOINT_DIR setup loop n b name (snd run1) in
  py_range s n = []
  /\ requests (snd run1)
     = (requests w ++ [execute_request COLAB_URL (full_code setup loop start_idx n)])%list
  /\ requests (snd run2)
     = (requests w ++ [execute_request COLAB_URL (full_code setup loop start_idx n);
                       execute_request COLAB_URL (full_code setup loop (JInt n) n)])%list
  /\ exists r1 r2,
       fst run1 = Returned r1 /\ fst run2 = Returned r2
       /\ completed r1 = n /\ remaining r1 = 0 /\ can_continue r1 = false
       /\ next_command r1 = None
       /\ completed r2 = n /\ remaining r2 = 0 /\ can_continue r2 = false
       /\ next_command r2 = None
       /\ progress_pct r2 = progress_pct r1.
Proof.
  intros Hday Hback Hstart Hint Hs Hb Hn run1 run2.
  destruct (run_chunked_operation_step setup loop n b name day w start_idx s
              Hday Hstart Hint (Hback _)) as [excerpt Hrun1].
  replace (Z.min (s + b) n) with n in Hrun1 by lia.
  subst run2. subst run1. rewrite Hrun1. cbn [fst snd].
  match goal with |- context [run_chunked_operation _ _ _ _ _ _ _ ?x] => set (w1 := x) end.
  assert (Hstart1 : start_of (files w1 !! checkpoint_file CHECKPOINT_DIR name day)
                    = Returned (JInt n)).
  { subst w1. cbn [files]. rewrite lookup_insert_eq. apply start_of_saved. }
  destruct (run_chunked_operation_step setup loop n b name day w1 (JInt n) n
              Hday Hstart1 eq_refl (Hback _)) as [excerpt2 Hrun2].
  replace (Z.min (n + b) n) with n in Hrun2 by lia.
  rewrite Hrun2. cbn [fst snd requests].
  destruct (reply_usable_excerpt (TIMEOUTS Long + 30) _ (Hback (length (requests w))))
    as [x1 Hx1].
  assert (Hfit : fits_float n n = true) by (apply fits_float_within; lia).
  destruct (chunk_return_ok _ _ n n name x1 Hn Hfit Hx1) as [out1 Hret1].
  assert (Hback1 : usable_backend w1) by exact Hback.
  destruct (reply_usable_excerpt (TIMEOUTS Long + 30) _ (Hback1 (length (requests w1))))
    as [x2 Hx2].
  destruct (chunk_return_ok _ _ n n name x2 Hn Hfit Hx2) as [out2 Hret2].
  rewrite Hret1, Hret2.
  split. { unfold py_range. now replace (Z.to_nat (n - s)) with O by lia. }
  split; [reflexivity|].
  split. { subst w1. cbn [requests]. now rewrite <- app_assoc. }
  do 2 eexists. split; [reflexivity|]. split; [reflexivity|].
  cbn [completed remaining can_continue next_command progress_pct].
  rewrite Z.ltb_irrefl, Z.sub_diag. repeat split.
Qed.


(** C10 (amended): a call that omits [checkpoint_name] is the call with
    ["chunked_op"]; so when two jobs both rely on the default and their
    calls are made on one day and reach the checkpoint write, they share
    one progress record: the call of the second job dispatches the range
    that starts at the offset recorded by the call of the first job, and
    records its own end in the same file. *)
Theorem C10_default_checkpoint_name s1 l1 n1 b1 s2 l2 n2 b2 day w :
  same_day w day -> usable_backend w ->
  files w !! checkpoint_file CHECKPOINT_DIR "chunked_op" day = None ->
  (forall s l n b w0,
      call_run_chunked_operation COLAB_URL CHECKPOINT_DIR s l n (Some b) None w0
      = run_chunked_operation COLAB_URL CHECKPOINT_DIR s l n b "chunked_op" w0)
  /\ let w1 := snd (call_run_chunked_operation COLAB_URL CHECKPOINT_DIR
                      s1 l1 n1 (Some b1) None w) in
     let w2 := snd (call_run_chunked_operation COLAB_URL CHECKPOINT_DIR
                      s2 l2 n2 (Some b2) None w1) in
     resume_offset (files w1 !! checkpoint_file CHECKPOINT_DIR "chunked_op" day)
     = Some (Z.min b1 n1)
     /\ requests w2
        = (requests w
           ++ [execute_request COLAB_URL (full_code s1 l1 (JInt 0) (Z.min b1 n1));
               execute_request COLAB_URL
                 (full_code s2 l2 (JInt (Z.min b1 n1)) (Z.min (Z.min b1 n1 + b2) n2))])%list
     /\ resume_offset (files w2 !! checkpoint_file CHECKPOINT_DIR "chunked_op" day)
        = Some (Z.min (Z.min b1 n1 + b2) n2).
Proof.
  intros Hday Hback Hnone. split; [reflexivity|].
  unfold call_run_chunked_operation. cbn [from_option]. unfold id.
  assert (Hstart : start_of (files w !! checkpoint_file CHECKPOINT_DIR "chunked_op" day)
                   = Returned (JInt 0)) by now rewrite Hnone.
  destruct (run_chunked_operation_step s1 l1 n1 b1 "chunked_op" day w (JInt 0) 0
              Hday Hstart eq_refl (Hback _)) as [excerpt Hrun1].
  rewrite Z.add_0_l in Hrun1. rewrite Hrun1. cbn [snd].
  match goal with |- context [run_chunked_operation _ _ _ _ _ _ _ ?x] => set (w1 := x) end.
  assert (Hlook : files w1 !! checkpoint_file CHECKPOINT_DIR "chunked_op" day
                  = Some (Some (checkpoint_record (iso (clock w (S (S (ticks w)))))
                                  "chunked_op" (progress_data (Z.min b1 n1) n1 excerpt)))).
  { subst w1. cbn [files]. now rewrite lookup_insert_eq. }
  assert (Hstart1 : start_of (files w1 !! checkpoint_file CHECKPOINT_DIR "chunked_op" day)
                    = Returned (JInt (Z.min b1 n1))) by now rewrite Hlook.
  assert (Hback1 : usable_backend w1) by exact Hback.
  destruct (run_chunked_operation_step s2 l2 n2 b2 "chunked_op" day w1 _ _
              Hday Hstart1 eq_refl (Hback1 _)) as [excerpt2 Hrun2].
  rewrite Hrun2. cbn [snd files requests].
  rewrite Hlook, lookup_insert_eq. split; [reflexivity|]. split; [|reflexivity].
  subst w1. cbn [requests]. now rewrite <- app_assoc.
Qed.

End Facts.

(** ** Runs on concrete inputs *)



Lemma C9_timeout_names_configured_deadline_witness :
  let w := world_of ∅ (NetTimeout 331) in
  fst (make_request example_url "POST" "/execute" 330 None w) =
    Returned (JDict [("success", JBool false);
                     ("error", JStr "TIMEOUT");
                     ("suggestion", JStr "Operation took longer than 330s")])
  /\ (exists r, requests (snd (make_request example_url "POST" "/execute" 330 None w))
                = ([] ++ [r])%list
                /\ req_timeout r = 330)
  /\ (forall timeout' w' elapsed',
        backend w' (length (requests w')) = NetTimeout elapsed' ->
        fst (make_request example_url "POST" "/execute" timeout' None w')
        = fst (make_request example_url "POST" "/execute" 330 None w) ->
        timeout' = 330).
Proof.
  apply (C9_timeout_names_configured_deadline example_url "POST" "/execute" 330 None
           (world_of ∅ (NetTimeout 331)) 331).
  reflexivity.
Defined.

Lemma C8_setup_code_iff_first_batch_witness :
  exists code,
    requests (snd (run_chunked_operation example_url example_dir "x=1" "print(i)" 25 10 "job"
                     (world_of ∅ (stdout_reply "ok"))))
      = ([] ++ [execute_request example_url code])%list
    /\ (0 = 0 ->
        code = nl +:+ "x=1" +:+ nl
               +:+ nl +:+ "# Chunked execution: iterations " +:+ py_str (JInt 0)
               +:+ " to " +:+ str_int (Z.min (0 + 10) 25 - 1) +:+ nl
               +:+ loop_block "print(i)" (JInt 0) (Z.min (0 + 10) 25))
    /\ (0 <> 0 ->
        code = nl +:+ "# Resuming chunked execution: iterations " +:+ py_str (JInt 0)
               +:+ " to " +:+ str_int (Z.min (0 + 10) 25 - 1) +:+ nl
               +:+ loop_block "print(i)" (JInt 0) (Z.min (0 + 10) 25)).
Proof.
  apply (C8_setup_code_iff_first_batch example_url example_dir "x=1" "print(i)" 25 10 "job"
           (world_of ∅ (stdout_reply "ok")) (JInt 0) 0); reflexivity.
Defined.

(** C7: on the example of the docstring, the code sent for the first batch
    holds [loop_code] once, as the body of a remote [for] loop, with its
    [{i}] placeholders left as they were written. *)
Theorem C7_placeholder_not_substituted :
  requests (snd (run_chunked_operation example_url example_dir
                   docstring_setup docstring_loop 100 20 "chunked_op"
                   (world_of ∅ (stdout_reply ""))))
  = [execute_request example_url
       (nl +:+ "import os; files = os.listdir('/content/data')" +:+ nl
        +:+ nl +:+ "# Chunked execution: iterations 0 to 19" +:+ nl
        +:+ "for i in range(0, 20):" +:+ nl
        +:+ "    print(f'Processing {i}: {files[{i}]}')" +:+ nl
        +:+ nl +:+ "print(f" +:+ dquote +:+ "Completed iterations 0 to 19" +:+ dquote
        +:+ ")" +:+ nl)].
Proof. vm_compute. reflexivity. Qed.

(** C5: with [n_iterations = 0] the call sends its request, writes its
    checkpoint and then raises [ZeroDivisionError]; and [get_checkpoint]
    raises when today's checkpoint file cannot be parsed. *)
Theorem C5_zero_iterations_raises :
  let run := run_chunked_operation example_url example_dir "x=1" "print(i)" 0 10 "job"
               (world_of ∅ (stdout_reply "")) in
  fst run = Raised ZeroDivisionError
  /\ length (requests (snd run)) = 1%nat
  /\ resume_offset (files (snd run) !! checkpoint_file example_dir "job" "20260101") = Some 0
  /\ fst (get_checkpoint example_dir "job" (world_of garbled_job (stdout_reply "")))
     = Raised JSONDecodeError
  /\ fst (run_chunked_operation example_url example_dir "x=1" "print(i)" 25 10 "job"
            (world_of garbled_job (stdout_reply "")))
     = Raised JSONDecodeError.
Proof. vm_compute. repeat split. Qed.



(** C3 fails as stated: the call after the final batch sends a request. *)
Lemma C3_counterexample :
  let w := world_of finished_job (stdout_reply "") in
  let run := run_chunked_operation example_url example_dir "x=1" "print(i)" 10 5 "job" w in
  resume_offset (files w !! checkpoint_file example_dir "job" "20260101") = Some 10
  /\ requests w = []
  /\ length (requests (snd run)) = 1%nat
  /\ (exists r, fst run = Returned r /\ can_continue r = false).
Proof. vm_compute. repeat split. eexists. split; reflexivity. Qed.


(** C10 fails as stated: when the day changes between the default calls of
    two jobs, the second job does not resume from the offset 30 that the
    first recorded; its call dispatches the range that starts at 0. *)
Lemma C10_counterexample :
  let w := world_at ∅ (rollover_clock 3) (stdout_reply "ok") in
  let w1 := snd (call_run_chunked_operation example_url example_dir
                   "import a" "a.step(i)" 100 (Some 30) None w) in
  let w2 := snd (call_run_chunked_operation example_url example_dir
                   "import b" "b.step(i)" 50 (Some 5) None w1) in
  resume_offset (files w1 !! checkpoint_file example_dir "chunked_op" "20260101") = Some 30
  /\ requests w2
     = [execute_request example_url (full_code "import a" "a.step(i)" (JInt 0) 30);
        execute_request example_url (full_code "import b" "b.step(i)" (JInt 0) 5)]
  /\ full_code "import b" "b.step(i)" (JInt 0) 5
     <> full_code "import b" "b.step(i)" (JInt 30) 35.
Proof. vm_compute. repeat split. discriminate. Qed.



Lemma C3_resume_after_final_batch_witness :
  let w := world_of finished_job (stdout_reply "") in
  let run1 := run_chunked_operation example_url example_dir "x=1" "print(i)" 10 5 "job" w in
  let run2 := run_chunked_operation example_url example_dir "x=1" "print(i)" 10 5 "job"
                (snd run1) in
  py_range 10 10 = []
  /\ requests (snd run1)
     = (requests w ++ [execute_request example_url
                         (full_code "x=1" "print(i)" (JInt 10) 10)])%list
  /\ requests (snd run2)
     = (requests w ++ [execute_request example_url (full_code "x=1" "print(i)" (JInt 10) 10);
                       execute_request example_url
                         (full_code "x=1" "print(i)" (JInt 10) 10)])%list
  /\ exists r1 r2,
       fst run1 = Returned r1 /\ fst run2 = Returned r2
       /\ completed r1 = 10 /\ remaining r1 = 0 /\ can_continue r1 = false
       /\ next_command r1 = None
       /\ completed r2 = 10 /\ remaining r2 = 0 /\ can_continue r2 = false
       /\ next_command r2 = None
       /\ progress_pct r2 = progress_pct r1.
Proof.
  apply (C3_resume_after_final_batch example_url example_dir "x=1" "print(i)" 10 5 "job"
           "20260101" (world_of finished_job (stdout_reply "")) (JInt 10) 10).
  - intros k. reflexivity.
  - intros k. reflexivity.
  - reflexivity.
  - reflexivity.
  - lia.
  - lia.
  - lia.
Defined.


Lemma C10_default_checkpoint_name_witness :
  (forall s l n b w0,
      call_run_chunked_operation example_url example_dir s l n (Some b) None w0
      = run_chunked_operation example_url example_dir s l n b "chunked_op" w0)
  /\ let w := world_of ∅ (stdout_reply "ok") in
     let w1 := snd (call_run_chunked_operation example_url example_dir
                      "import a" "a.step(i)" 100 (Some 30) None w) in
     let w2 := snd (call_run_chunked_operation example_url example_dir
                      "import b" "b.step(i)" 50 (Some 5) None w1) in
     resume_offset (files w1 !! checkpoint_file example_dir "chunked_op" "20260101")
     = Some (Z.min 30 100)
     /\ requests w2
        = (requests w
           ++ [execute_request example_url
                 (full_code "import a" "a.step(i)" (JInt 0) (Z.min 30 100));
               execute_request example_url
                 (full_code "import b" "b.step(i)" (JInt (Z.min 30 100))
                    (Z.min (Z.min 30 100 + 5) 50))])%list
     /\ resume_offset (files w2 !! checkpoint_file example_dir "chunked_op" "20260101")
        = Some (Z.min (Z.min 30 100 + 5) 50).
Proof.
  apply (C10_default_checkpoint_name example_url example_dir
           "import a" "a.step(i)" 100 30 "import b" "b.step(i)" 50 5
           "20260101" (world_of ∅ (stdout_reply "ok"))).
  - intros k. reflexivity.
  - intros k. reflexivity.
  - reflexivity.
Defined.

(** ** Further properties: strings and dicts *)




Lemma length_substring_0 n s :
  String.length (substring 0 n s) = Nat.min n (String.length s).
Proof.
  revert s. induction n as [|n IH]; intros [|c s]; cbn; try reflexivity.
  now rewrite IH.
Qed.

Lemma prefix_substring_0 n s : String.prefix (substring 0 n s) s = true.
Proof.
  revert s. induction n as [|n IH]; intros [|c s]; cbn; try reflexivity.
  rewrite IH. now destruct (ascii_dec c c).
Qed.

Lemma dict_get_set_eq key v d : dict_get key (dict_set key v d) = Some v.
Proof.
  induction d as [|[k x] d IH]; cbn.
  - now rewrite String.eqb_refl.
  - destruct (String.eqb k key) eqn:E; cbn; now rewrite E.
Qed.

Lemma dict_get_set_ne key key' v d :
  key <> key' -> dict_get key' (dict_set key v d) = dict_get key' d.
Proof.
  intros Hne. induction d as [|[k x] d IH]; cbn.
  - destruct (String.eqb_spec key key'); [contradiction|reflexivity].
  - destruct (String.eqb_spec k key) as [->|Hk]; cbn.
    + destruct (String.eqb_spec key key'); [contradiction|reflexivity].
    + now rewrite IH.
Qed.

Lemma dict_keys_set_present key v d :
  In key (dict_keys d) -> dict_keys (dict_set key v d) = dict_keys d.
Proof.
  unfold dict_keys. induction d as [|[k x] d IH]; cbn; [contradiction|].
  destruct (String.eqb_spec k key) as [->|Hk]; cbn; [reflexivity|].
  intros [H|H]; [contradiction|]. f_equal. now apply IH.
Qed.

Lemma dict_set_fresh key v d :
  ~ In key (dict_keys d) -> dict_set key v d = (d ++ [(key, v)])%list.
Proof.
  unfold dict_keys. induction d as [|[k x] d IH]; cbn; [reflexivity|].
  intros H. destruct (String.eqb_spec k key) as [->|Hk]; [tauto|].
  rewrite IH; [reflexivity|tauto].
Qed.

Lemma splat_fresh d : forall base,
  List.NoDup (dict_keys (base ++ d)) ->
  fold_left (fun acc kv => dict_set (fst kv) (snd kv) acc) d base = (base ++ d)%list.
Proof.
  induction d as [|[k v] d IH]; intros base Hnd; cbn [fold_left fst snd].
  - now rewrite app_nil_r.
  - assert (Hfresh : ~ In k (dict_keys base)).
    { unfold dict_keys in *. rewrite map_app in Hnd. cbn in Hnd.
      apply List.NoDup_remove_2 in Hnd. intros Hin. apply Hnd.
      apply in_or_app. now left. }
    rewrite (dict_set_fresh _ _ _ Hfresh).
    rewrite IH; rewrite <- app_assoc; [reflexivity|exact Hnd].
Qed.

Section MoreFacts.

Variable COLAB_URL : string.
Variable CHECKPOINT_DIR : string.

(** ** Further properties: the checkpoint store *)







(** X5: for a checkpoint file that holds any non-empty JSON object whose
    keys are distinct and do not include ["exists"], [get_checkpoint]
    returns that object with ["exists": True] put in front, and changes no
    file and sends no request. *)
Theorem X5_get_checkpoint_of_stored_object operation d w :
  files w !! checkpoint_file CHECKPOINT_DIR operation (ymd (clock w (ticks w)))
    = Some (Some (JDict d)) ->
  d <> [] ->
  List.NoDup ("exists" :: dict_keys d) ->
  get_checkpoint CHECKPOINT_DIR operation w
  = (Returned (JDict (("exists", JBool true) :: d)), advance 1 w).
Proof.
  intros Hfile Hne Hnd. unfold get_checkpoint.
  pose proof (load_checkpoint_eq CHECKPOINT_DIR operation w) as HL.
  rewrite Hfile in HL. cbn [loaded] in HL. rewrite (bind_returned _ _ _ _ _ HL).
  destruct d as [|kv d]; [contradiction|]. cbn [truthy].
  unfold lift, py_splat_onto. now rewrite splat_fresh.
Qed.

(** X6: when there is no checkpoint file for the day, or the file holds a
    falsy document ([null], [false], [0], an empty string, list or object),
    [get_checkpoint] reports ["exists": False] with a message naming the
    operation. *)
Theorem X6_get_checkpoint_not_found operation w :
  (files w !! checkpoint_file CHECKPOINT_DIR operation (ymd (clock w (ticks w))) = None
   \/ exists v,
        files w !! checkpoint_file CHECKPOINT_DIR operation (ymd (clock w (ticks w)))
          = Some (Some v)
        /\ truthy v = false) ->
  get_checkpoint CHECKPOINT_DIR operation w
  = (Returned (JDict [("exists", JBool false);
                      ("message",
                       JStr ("No checkpoint found for '" +:+ operation +:+ "'"))]),
     advance 1 w).
Proof.
  intros H. unfold get_checkpoint.
  pose proof (load_checkpoint_eq CHECKPOINT_DIR operation w) as HL.
  destruct H as [H|(v & H & Hv)]; rewrite H in HL; cbn [loaded] in HL;
    rewrite (bind_returned _ _ _ _ _ HL); [reflexivity|].
  now rewrite Hv.
Qed.

(** X7: when the file of the day holds a truthy document that is not an
    object (a number, a string, a list, [true]), [get_checkpoint] raises
    [TypeError]. *)
Theorem X7_get_checkpoint_of_non_object operation v w :
  files w !! checkpoint_file CHECKPOINT_DIR operation (ymd (clock w (ticks w)))
    = Some (Some v) ->
  truthy v = true ->
  (forall d, v <> JDict d) ->
  fst (get_checkpoint CHECKPOINT_DIR operation w) = Raised TypeError.
Proof.
  intros Hfile Hv Hobj. unfold get_checkpoint.
  pose proof (load_checkpoint_eq CHECKPOINT_DIR operation w) as HL.
  rewrite Hfile in HL. cbn [loaded] in HL. rewrite (bind_returned _ _ _ _ _ HL).
  rewrite Hv. destruct v; try reflexivity. now destruct (Hobj d).
Qed.

(** ** Further properties: the transport dispatcher *)

(** X8: one call sends exactly one request and touches no file, and its
    result always has a boolean ["success"]: [True] exactly for a 200 reply
    whose body parses, in which case ["data"] is that body and there is no
    ["error"]; otherwise there is an ["error"] string and no ["data"]. *)
Theorem X8_make_request_classifies method endpoint timeout body w :
  exists result w',
    make_request COLAB_URL method endpoint timeout body w = (Returned (JDict result), w')
    /\ files w' = files w
    /\ length (requests w') = S (length (requests w))
    /\ dict_get "success" result
       = Some (JBool (reply_success (backend w (length (requests w)))))
    /\ if reply_success (backend w (length (requests w))) then
         dict_get "data" result = reply_body (backend w (length (requests w)))
         /\ dict_get "error" result = None
       else
         dict_get "data" result = None
         /\ exists message, dict_get "error" result = Some (JStr message).
Proof.
  rewrite make_request_eq. unfold reply_dict, reply_success, reply_body.
  destruct (backend w (length (requests w))) as [code text [msg|data]| | |];
    try destruct (code =? 200);
    do 2 eexists; (split; [reflexivity|]); cbn [files requests];
    rewrite ?length_app, ?Nat.add_1_r; repeat split; cbn; eauto.
Qed.

(** X9: for a reply with a status other than 200 the result is
    ["HTTP <status>"] with a ["body"] that is the first 500 characters of
    the response text: a prefix of it, of length [min(500, len(text))]. *)
Theorem X9_http_error_body_bounded method endpoint timeout body w code text parsed :
  backend w (length (requests w)) = NetResponse code text parsed ->
  code <> 200 ->
  exists excerpt,
    fst (make_request COLAB_URL method endpoint timeout body w)
    = Returned (JDict [("success", JBool false);
                       ("error", JStr ("HTTP " +:+ str_int code));
                       ("body", JStr excerpt)])
    /\ String.prefix excerpt text = true
    /\ String.length excerpt = Nat.min 500 (String.length text).
Proof.
  intros Hev Hc. rewrite make_request_eq, Hev. cbn [fst reply_dict].
  destruct (Z.eqb_spec code 200) as [|_]; [contradiction|].
  eexists. split; [reflexivity|]. split.
  - apply prefix_substring_0.
  - apply length_substring_0.
Qed.

(** ** Further properties: the chunked execution engine *)

Lemma bind_inv {A B} (m : Py A) (k : A -> Py B) w b :
  fst (bind m k w) = Returned b ->
  exists a w', m w = (Returned a, w') /\ fst (k a w') = Returned b.
Proof.
  unfold bind. destruct (m w) as [[a|e] w']; [eauto|discriminate].
Qed.

Lemma lift_inv {A} (o : outcome A) w a w' : lift o w = (Returned a, w') -> o = Returned a.
Proof. unfold lift. now intros [= -> _]. Qed.

(** X10: a checkpoint from which no offset can be read stops the call
    before anything is sent or written: the exception of the load (an
    unparsable file, a record that is not an object, a ["data"] that is not
    an object) is passed on, and a ["completed"] that is [null], a string,
    a list or an object raises [TypeError]; the world has only seen one
    reading of the clock. *)
Theorem X10_malformed_checkpoint_stops_before_dispatch setup loop n b name w :
  (forall e,
      start_of (files w !! checkpoint_file CHECKPOINT_DIR name (ymd (clock w (ticks w))))
        = Raised e ->
      run_chunked_operation COLAB_URL CHECKPOINT_DIR setup loop n b name w
      = (Raised e, advance 1 w))
  /\ (forall v,
      start_of (files w !! checkpoint_file CHECKPOINT_DIR name (ymd (clock w (ticks w))))
        = Returned v ->
      non_numeric v = true ->
      run_chunked_operation COLAB_URL CHECKPOINT_DIR setup loop n b name w
      = (Raised TypeError, advance 1 w)).
Proof.
  pose proof (load_checkpoint_eq CHECKPOINT_DIR name w) as HL.
  unfold run_chunked_operation, start_of.
  split.
  - intros e Hstart.
    destruct (loaded _) as [ck|e'] eqn:Hload.
    + rewrite (bind_returned _ _ _ _ _ HL). rewrite bind_lift. now rewrite Hstart.
    + injection Hstart as ->. unfold bind. now rewrite HL.
  - intros v Hstart Hkind.
    assert (Hint : py_int v = None) by (destruct v; try discriminate; reflexivity).
    destruct (loaded _) as [ck|e'] eqn:Hload; [|discriminate].
    rewrite (bind_returned _ _ _ _ _ HL). rewrite bind_lift, Hstart.
    rewrite bind_lift. unfold py_add_int. now rewrite Hint.
Qed.

Lemma unusable_reply_raises timeout ev :
  reply_usable ev = false ->
  exists e,
    last_batch_output_of (reply_dict COLAB_URL timeout ev) = Raised e
    /\ (e = AttributeError \/ e = TypeError).
Proof.
  destruct ev as [code text [msg|data]| | |]; cbn; try discriminate.
  destruct (code =? 200); [|discriminate]. cbn.
  destruct data as [| | | | |d]; cbn; eauto.
  destruct (dict_get "stdout" d) as [[]|]; cbn; try discriminate; eauto.
Qed.

Lemma run_chunked_operation_excerpt_raises setup loop n b name w start_idx s e :
  start_of (files w !! checkpoint_file CHECKPOINT_DIR name (ymd (clock w (ticks w))))
    = Returned start_idx ->
  py_int start_idx = Some s ->
  last_batch_output_of
    (reply_dict COLAB_URL (TIMEOUTS Long + 30) (backend w (length (requests w))))
    = Raised e ->
  run_chunked_operation COLAB_URL CHECKPOINT_DIR setup loop n b name w =
  (Raised e,
   World (files w) (clock w) (1 + ticks w) (backend w)
         (requests w ++ [execute_request COLAB_URL
                           (full_code setup loop start_idx (Z.min (s + b) n))])).
Proof.
  intros Hstart Hint Hex.
  unfold run_chunked_operation.
  unfold start_of in Hstart.
  destruct (loaded _) as [ck|] eqn:Hload; [|discriminate].
  pose proof (load_checkpoint_eq CHECKPOINT_DIR name w) as HL. rewrite Hload in HL.
  rewrite (bind_returned _ _ _ _ _ HL).
  rewrite bind_lift, Hstart.
  rewrite bind_lift. unfold py_add_int at 1. rewrite Hint.
  rewrite (bind_returned _ _ _ _ _ (make_request_eq _ _ _ _ _ _)).
  cbn [advance files clock ticks backend requests Nat.add].
  set (result := reply_dict _ _ _) in *.
  rewrite bind_lift.
  unfold last_batch_output_of in Hex.
  destruct (py_item result "success") as [ok|] eqn:Hok;
    [|injection Hex as ->; reflexivity].
  destruct (truthy ok); [|discriminate].
  unfold bind at 1. rewrite bind_lift.
  destruct (batch_stdout result) as [out|];
    [unfold lift; rewrite Hex|injection Hex as ->]; reflexivity.
Qed.

(** X11: a 200 reply whose body is not an object, or whose ["stdout"]
    cannot be sliced, makes the call raise ([AttributeError] or
    [TypeError]) after the request has been sent and before the checkpoint
    is written: no file changes, so the batch is not recorded as done. *)
Theorem X11_unusable_reply_leaves_checkpoint setup loop n b name w start_idx s :
  start_of (files w !! checkpoint_file CHECKPOINT_DIR name (ymd (clock w (ticks w))))
    = Returned start_idx ->
  py_int start_idx = Some s ->
  reply_usable (backend w (length (requests w))) = false ->
  let run := run_chunked_operation COLAB_URL CHECKPOINT_DIR setup loop n b name w in
  (fst run = Raised AttributeError \/ fst run = Raised TypeError)
  /\ files (snd run) = files w
  /\ requests (snd run)
     = (requests w ++ [execute_request COLAB_URL
                         (full_code setup loop start_idx (Z.min (s + b) n))])%list.
Proof.
  intros Hstart Hint Hev run.
  destruct (unusable_reply_raises (TIMEOUTS Long + 30) _ Hev) as (e & Hex & He).
  subst run.
  rewrite (run_chunked_operation_excerpt_raises setup loop n b name w start_idx s e
             Hstart Hint Hex).
  cbn [fst snd files requests]. split; [|split; reflexivity].
  destruct He as [->| ->]; auto.
Qed.




Lemma returned_shape setup loop n b name w r :
  fst (run_chunked_operation COLAB_URL CHECKPOINT_DIR setup loop n b name w) = Returned r ->
  exists start_idx s,
    start_of (files w !! checkpoint_file CHECKPOINT_DIR name (ymd (clock w (ticks w))))
      = Returned start_idx
    /\ py_int start_idx = Some s
    /\ n <> 0
    /\ completed r = Z.min (s + b) n
    /\ remaining r = n - Z.min (s + b) n
    /\ can_continue r = (Z.min (s + b) n <? n)
    /\ next_command r
       = if Z.min (s + b) n <? n then
           Some ("run_chunked_operation(..., checkpoint_name='" +:+ name +:+ "')")
         else None.
Proof.
  intros H. unfold run_chunked_operation in H.
  apply bind_inv in H as (checkpoint & w1 & Hload & H).
  apply bind_inv in H as (start_idx & w2 & Hidx & H).
  apply bind_inv in H as (sum & w3 & Hsum & H).
  apply bind_inv in H as (result & w4 & _ & H).
  apply bind_inv in H as (ok & w5 & _ & H).
  apply bind_inv in H as (excerpt & w6 & _ & H).
  apply bind_inv in H as (path & w7 & _ & H).
  apply bind_inv in H as (ratio & w8 & Hratio & H).
  apply bind_inv in H as (ok' & w9 & _ & H).
  apply bind_inv in H as (out & w10 & _ & H).
  apply bind_inv in H as (ok'' & w11 & _ & H).
  cbn [ret fst] in H. injection H as <-.
  cbn [completed remaining can_continue next_command].
  rewrite load_checkpoint_eq in Hload. injection Hload as Hload _.
  apply lift_inv in Hidx, Hsum, Hratio.
  unfold py_add_int in Hsum.
  destruct (py_int start_idx) as [s|] eqn:Hint; [|discriminate]. injection Hsum as <-.
  unfold py_truediv in Hratio.
  destruct (Z.eqb_spec n 0) as [|Hn]; [discriminate|].
  exists start_idx, s. unfold start_of. rewrite Hload.
  repeat split; assumption.
Qed.

(** X14: whatever the backend does, when the offset read from the
    checkpoint of the day is an integer [s], a result that
    [run_chunked_operation] returns is consistent: the total is not 0,
    [completed] is [min(s + batch_size, n_iterations)] and does not exceed
    the total, [completed + remaining] is the total, [can_continue] holds
    exactly when something remains, and a next command is proposed exactly
    when [can_continue] holds. *)
Theorem X14_returned_progress_is_consistent setup loop n b name w start_idx s r :
  start_of (files w !! checkpoint_file CHECKPOINT_DIR name (ymd (clock w (ticks w))))
    = Returned start_idx ->
  py_int start_idx = Some s ->
  fst (run_chunked_operation COLAB_URL CHECKPOINT_DIR setup loop n b name w) = Returned r ->
  n <> 0
  /\ completed r = Z.min (s + b) n
  /\ completed r + remaining r = n
  /\ completed r <= n
  /\ can_continue r = (0 <? remaining r)
  /\ (next_command r = None <-> can_continue r = false).
Proof.
  intros Hstart Hint H.
  destruct (returned_shape _ _ _ _ _ _ _ H)
    as (start_idx' & s' & Hstart' & Hint' & Hn & -> & -> & -> & ->).
  rewrite Hstart in Hstart'. injection Hstart' as <-.
  rewrite Hint in Hint'. injection Hint' as <-.
  split; [exact Hn|]. split; [reflexivity|]. split; [lia|]. split; [lia|]. split.
  - destruct (Z.ltb_spec (Z.min (s + b) n) n), (Z.ltb_spec 0 (n - Z.min (s + b) n));
      lia || reflexivity.
  - destruct (Z.min (s + b) n <? n); split; intros; congruence.
Qed.


(** ** Further properties: the other capabilities *)

Lemma reply_dict_success timeout ev :
  py_item (reply_dict COLAB_URL timeout ev) "success" = Returned (JBool (reply_success ev)).
Proof.
  destruct ev as [code text [msg|data]| | |]; cbn; try reflexivity;
    destruct (code =? 200); reflexivity.
Qed.

Lemma reply_dict_data timeout code text data :
  py_item (reply_dict COLAB_URL timeout (NetResponse code text (inr data))) "data"
  = if code =? 200 then Returned data else Raised KeyError.
Proof. cbn. destruct (code =? 200); reflexivity. Qed.

Lemma reply_dict_error timeout ev :
  reply_success ev = false ->
  exists message,
    py_get (reply_dict COLAB_URL timeout ev) "error" JNull = Returned (JStr message)
    /\ py_item (reply_dict COLAB_URL timeout ev) "error" = Returned (JStr message).
Proof.
  destruct ev as [code text [msg|data]| | |]; cbn; intros H;
    try destruct (code =? 200); try discriminate; cbn; eauto.
Qed.

(** The shape shared by the pass-through capabilities. *)
Lemma pass_through_eq method endpoint timeout body w :
  (let* result := make_request COLAB_URL method endpoint timeout body in
   let* ok := lift (py_item result "success") in
   if truthy ok then lift (py_item result "data") else ret result) w
  = (Returned (passed_through COLAB_URL timeout (backend w (length (requests w)))),
     World (files w) (clock w) (ticks w) (backend w)
           (requests w ++ [Request (if String.eqb method "GET" then GET else POST)
                                   (COLAB_URL +:+ endpoint) timeout body])).
Proof.
  rewrite (bind_returned _ _ _ _ _ (make_request_eq _ _ _ _ _ _)).
  rewrite bind_lift, reply_dict_success. unfold passed_through, reply_success.
  destruct (backend w (length (requests w))) as [code text [msg|data]| | |];
    cbn [truthy]; try reflexivity.
  unfold lift. rewrite reply_dict_data. now destruct (code =? 200).
Qed.

(** X17: the four pass-through capabilities never raise, whatever document
    the backend returns: each sends one request (the code with the backend
    timeout 120 under a client deadline of 150 seconds for [run_code_quick];
    a 30-second request without body for the three others, the path being
    appended to the URL as it is) and returns the body of a successful
    reply, or the failure dictionary of the dispatcher. *)
Theorem X17_pass_through_capabilities code path w :
  let ev := backend w (length (requests w)) in
  let sent r := World (files w) (clock w) (ticks w) (backend w) (requests w ++ [r]) in
  run_code_quick COLAB_URL code w
  = (Returned (passed_through COLAB_URL 150 ev),
     sent (Request POST (COLAB_URL +:+ "/execute") 150
             (Some (JDict [("code", JStr code); ("timeout", JInt 120)]))))
  /\ list_colab_files COLAB_URL path w
     = (Returned (passed_through COLAB_URL 30 ev),
        sent (Request GET (COLAB_URL +:+ "/files/list?path=" +:+ default "/content" path)
                30 None))
  /\ cleanup_colab COLAB_URL w
     = (Returned (passed_through COLAB_URL 30 ev),
        sent (Request POST (COLAB_URL +:+ "/cleanup") 30 None))
  /\ list_colab_variables COLAB_URL w
     = (Returned (passed_through COLAB_URL 30 ev),
        sent (Request GET (COLAB_URL +:+ "/variables") 30 None)).
Proof.
  intros ev sent. subst ev sent.
  unfold run_code_quick, list_colab_files, cleanup_colab, list_colab_variables.
  rewrite !pass_through_eq. repeat split.
Qed.

(** X18: when the dispatch fails in any way, [check_colab_connection]
    returns the ["disconnected"] dictionary with the dispatcher's error
    string, after one GET of [/health] under a 30-second deadline. *)
Theorem X18_connection_check_reports_failure w :
  reply_success (backend w (length (requests w))) = false ->
  exists message,
    check_colab_connection COLAB_URL w
    = (Returned (JDict [("status", JStr "disconnected");
                        ("error", JStr message);
                        ("colab_url", JStr COLAB_URL);
                        ("suggestion",
                         JStr "Check if Colab notebook is running and ngrok URL is correct")]),
       World (files w) (clock w) (ticks w) (backend w)
             (requests w ++ [Request GET (COLAB_URL +:+ "/health") 30 None]))
    /\ py_item (reply_dict COLAB_URL 30 (backend w (length (requests w)))) "error"
       = Returned (JStr message).
Proof.
  intros Hev. unfold check_colab_connection.
  rewrite (bind_returned _ _ _ _ _ (make_request_eq _ _ _ _ _ _)).
  rewrite bind_lift, reply_dict_success, Hev. cbn [truthy].
  destruct (reply_dict_error (TIMEOUTS Quick) _ Hev) as (message & Hget & Hitem).
  exists message. rewrite bind_lift, Hget. split; [reflexivity|exact Hitem].
Qed.

(** X19: on a successful reply whose body is an object,
    [check_colab_connection] returns that object with ["status"] set to
    ["connected"] (replacing a status of the backend's own) and
    ["colab_url"] set to the configured URL; every other key keeps its
    value. *)
Theorem X19_connection_check_marks_payload w text d :
  backend w (length (requests w)) = NetResponse 200 text (inr (JDict d)) ->
  exists d',
    fst (check_colab_connection COLAB_URL w) = Returned (JDict d')
    /\ dict_get "status" d' = Some (JStr "connected")
    /\ dict_get "colab_url" d' = Some (JStr COLAB_URL)
    /\ forall key, key <> "status" -> key <> "colab_url" ->
                   dict_get key d' = dict_get key d.
Proof.
  intros Hev. unfold check_colab_connection.
  rewrite (bind_returned _ _ _ _ _ (make_request_eq _ _ _ _ _ _)).
  rewrite bind_lift, reply_dict_success, Hev. cbn [reply_success Z.eqb Pos.eqb truthy].
  rewrite bind_lift, reply_dict_data. cbn [Z.eqb Pos.eqb].
  eexists. split; [reflexivity|]. split; [|split].
  - rewrite dict_get_set_ne by discriminate. apply dict_get_set_eq.
  - apply dict_get_set_eq.
  - intros key H1 H2. rewrite !dict_get_set_ne by congruence. reflexivity.
Qed.

(** X20: on a successful reply whose body is not an object (a list, a
    string, a number, [null]), [check_colab_connection] raises [TypeError]
    and [probe_colab_environment] raises [AttributeError]. *)
Theorem X20_non_object_payload_raises w text data :
  backend w (length (requests w)) = NetResponse 200 text (inr data) ->
  (forall d, data <> JDict d) ->
  fst (check_colab_connection COLAB_URL w) = Raised TypeError
  /\ fst (probe_colab_environment COLAB_URL w) = Raised AttributeError.
Proof.
  intros Hev Hobj. unfold check_colab_connection, probe_colab_environment.
  rewrite !(bind_returned _ _ _ _ _ (make_request_eq _ _ _ _ _ _)).
  rewrite !bind_lift, !reply_dict_success, Hev. cbn [reply_success Z.eqb Pos.eqb truthy].
  rewrite !bind_lift, !reply_dict_data. cbn [Z.eqb Pos.eqb].
  destruct data; try (split; reflexivity). now destruct (Hobj d).
Qed.

Lemma probe_on_object w text d :
  backend w (length (requests w)) = NetResponse 200 text (inr (JDict d)) ->
  forall k : json -> Py json,
    (let* result := make_request COLAB_URL "GET" "/probe" (TIMEOUTS Quick) None in
     let* ok := lift (py_item result "success") in
     if truthy ok then let* data := lift (py_item result "data") in k data
     else ret result) w
    = k (JDict d)
        (World (files w) (clock w) (ticks w) (backend w)
               (requests w ++ [Request GET (COLAB_URL +:+ "/probe") (TIMEOUTS Quick) None])).
Proof.
  intros Hev k.
  rewrite (bind_returned _ _ _ _ _ (make_request_eq _ _ _ _ _ _)).
  rewrite bind_lift, reply_dict_success, Hev. cbn [reply_success Z.eqb Pos.eqb truthy].
  rewrite bind_lift, reply_dict_data. reflexivity.
Qed.

(** X21: for a probe payload that reports its three sections with integer
    figures (the available RAM not below [-2^53], so that it is a float
    exactly), [probe_colab_environment] returns the payload with a
    ["recommendations"] list that holds, in this order, the no-GPU advice
    when [gpu.available] is falsy, the low-RAM advice when fewer than 4 GB
    are available, and the session advice when fewer than 30 minutes
    remain; every other key of the payload keeps its value. *)
Theorem X21_probe_recommendations w text d g c l available ram minutes :
  backend w (length (requests w)) = NetResponse 200 text (inr (JDict d)) ->
  dict_get "gpu" d = Some (JDict g) ->
  dict_get "available" g = Some available ->
  dict_get "compute" d = Some (JDict c) ->
  dict_get "ram_available_gb" c = Some (JInt ram) ->
  - 2 ^ 53 <= ram ->
  dict_get "limits" d = Some (JDict l) ->
  dict_get "estimated_session_minutes_remaining" l = Some (JInt minutes) ->
  exists d',
    fst (probe_colab_environment COLAB_URL w) = Returned (JDict d')
    /\ dict_get "recommendations" d'
       = Some (JList ((if truthy available then [] else [no_gpu_advice])
                      ++ (if ram <? 4 then [low_ram_advice ram] else [])
                      ++ (if minutes <? 30 then [session_advice] else [])))
    /\ forall key, key <> "recommendations" -> dict_get key d' = dict_get key d.
Proof.
  intros Hev Hgpu Hav Hcompute Hram _ Hlimits Hmin.
  unfold probe_colab_environment. rewrite (probe_on_object w text d Hev).
  rewrite ?bind_lift. cbn [py_get]. rewrite Hgpu.
  rewrite ?bind_lift. cbn [py_get]. rewrite Hcompute.
  rewrite ?bind_lift. cbn [py_get]. rewrite Hram.
  rewrite ?bind_lift. cbn [py_get]. rewrite Hav.
  rewrite ?bind_lift. cbn [py_lt_int py_int].
  rewrite ?bind_lift. cbn [py_get]. rewrite Hlimits.
  rewrite ?bind_lift. cbn [py_get]. rewrite Hmin.
  rewrite ?bind_lift. cbn [py_lt_int py_int].
  rewrite ?bind_lift. cbn [py_setitem lift ret fst].
  eexists. split; [reflexivity|]. split.
  - rewrite dict_get_set_eq. f_equal. f_equal.
    unfold low_ram_advice, no_gpu_advice, session_advice, py_format_1f. cbn [py_int].
    rewrite append_assoc_r.
    destruct (truthy available), (ram <? 4), (minutes <? 30); reflexivity.
  - intros key Hkey. now rewrite dict_get_set_ne by congruence.
Qed.

(** X22: a probe payload that is an object without the ["gpu"],
    ["compute"] and ["limits"] sections is read with the defaults (no GPU,
    0 GB, 90 minutes): the no-GPU and the low-RAM advice, for 0 GB, are
    recommended and the session advice is not. *)
Theorem X22_probe_defaults_for_missing_sections w text d :
  backend w (length (requests w)) = NetResponse 200 text (inr (JDict d)) ->
  dict_get "gpu" d = None ->
  dict_get "compute" d = None ->
  dict_get "limits" d = None ->
  fst (probe_colab_environment COLAB_URL w)
  = Returned (JDict (dict_set "recommendations"
                       (JList [no_gpu_advice; low_ram_advice 0]) d)).
Proof.
  intros Hev Hgpu Hcompute Hlimits.
  unfold probe_colab_environment. rewrite (probe_on_object w text d Hev).
  rewrite ?bind_lift. cbn [py_get]. rewrite Hgpu.
  rewrite ?bind_lift. cbn [py_get]. rewrite Hcompute.
  rewrite ?bind_lift. cbn [py_get dict_get].
  rewrite ?bind_lift. cbn [py_lt_int py_int].
  rewrite ?bind_lift. cbn [py_get]. rewrite Hlimits.
  rewrite ?bind_lift. cbn [py_get dict_get].
  rewrite ?bind_lift. cbn [py_lt_int py_int].
  rewrite ?bind_lift. reflexivity.
Qed.

(** X23: a probe payload whose ["gpu"] entry is present but is not an
    object (for instance [null]) makes [probe_colab_environment] raise
    [AttributeError]: the default only stands in for a missing key. *)
Theorem X23_probe_null_section_raises w text d gpu :
  backend w (length (requests w)) = NetResponse 200 text (inr (JDict d)) ->
  dict_get "gpu" d = Some gpu ->
  (forall g, gpu <> JDict g) ->
  dict_get "compute" d = None ->
  fst (probe_colab_environment COLAB_URL w) = Raised AttributeError.
Proof.
  intros Hev Hgpu Hobj Hcompute.
  unfold probe_colab_environment. rewrite (probe_on_object w text d Hev).
  rewrite ?bind_lift. cbn [py_get]. rewrite Hgpu.
  rewrite ?bind_lift. cbn [py_get]. rewrite Hcompute.
  rewrite ?bind_lift. cbn [py_get dict_get].
  rewrite ?bind_lift.
  destruct gpu; try reflexivity. now destruct (Hobj d0).
Qed.

Lemma truthy_name name : truthy (JStr name) = negb (String.eqb name "").
Proof. reflexivity. Qed.

(** X24: [run_code_long] writes no checkpoint when the checkpoint name is
    omitted or empty, or when the dispatch fails: it sends its one request
    (backend timeout 600 under a client deadline of 660 seconds), changes
    no file and returns the body of the reply or the dispatcher's failure
    dictionary, without raising. *)
Theorem X24_long_run_without_checkpoint code checkpoint_name w :
  default "" checkpoint_name = ""
    \/ reply_success (backend w (length (requests w))) = false ->
  run_code_long COLAB_URL CHECKPOINT_DIR code checkpoint_name w
  = (Returned (passed_through COLAB_URL 660 (backend w (length (requests w)))),
     World (files w) (clock w) (ticks w) (backend w)
           (requests w ++ [long_request COLAB_URL code])).
Proof.
  intros H. unfold run_code_long.
  rewrite (bind_returned _ _ _ _ _ (make_request_eq _ _ _ _ _ _)).
  rewrite bind_lift, reply_dict_success.
  set (ev := backend w (length (requests w))) in *.
  set (w1 := World _ _ _ _ _).
  assert (Hresp : (if truthy (JBool (reply_success ev))
                   then lift (py_item (reply_dict COLAB_URL (TIMEOUTS Max + 60) ev) "data")
                   else ret (reply_dict COLAB_URL (TIMEOUTS Max + 60) ev)) w1
                  = (Returned (passed_through COLAB_URL 660 ev), w1)).
  { unfold passed_through, reply_success.
    destruct ev as [code' text [msg|data]| | |]; cbn [truthy]; try reflexivity.
    unfold lift. rewrite reply_dict_data. now destruct (code' =? 200). }
  rewrite (bind_returned _ _ _ _ _ Hresp).
  rewrite truthy_name.
  destruct H as [-> | Hev].
  - reflexivity.
  - destruct (negb _); [|reflexivity].
    unfold bind at 1. rewrite bind_lift, ?reply_dict_success, Hev. reflexivity.
Qed.

Lemma run_code_long_saved_eq code name w text d out :
  backend w (length (requests w)) = NetResponse 200 text (inr (JDict d)) ->
  name <> "" ->
  py_get (JDict d) "stdout" (JStr "") = Returned (JStr out) ->
  run_code_long COLAB_URL CHECKPOINT_DIR code (Some name) w
  = (Returned (JDict (dict_set "checkpoint_saved"
                        (JStr (checkpoint_file CHECKPOINT_DIR name
                                 (ymd (clock w (1 + ticks w))))) d)),
     World (<[checkpoint_file CHECKPOINT_DIR name (ymd (clock w (1 + ticks w))) :=
                Some (checkpoint_record (iso (clock w (2 + ticks w))) name
                        (long_run_data code out
                           (default JNull (dict_get "execution_time_sec" d))
                           (iso (clock w (ticks w)))))]> (files w))
           (clock w) (3 + ticks w) (backend w)
           (requests w ++ [long_request COLAB_URL code])).
Proof.
  intros Hev Hname Hout. unfold run_code_long. cbn [from_option]. unfold id.
  rewrite (bind_returned _ _ _ _ _ (make_request_eq _ _ _ _ _ _)).
  rewrite bind_lift, reply_dict_success, Hev. cbn [reply_success Z.eqb Pos.eqb truthy].
  unfold bind at 1. unfold lift at 1. rewrite reply_dict_data. cbn [Z.eqb Pos.eqb].
  destruct (String.eqb_spec name "") as [|_]; [contradiction|]. cbn [negb].
  unfold bind at 1. rewrite bind_lift. cbn [ret truthy].
  rewrite bind_lift, Hout. rewrite bind_lift. cbn [py_slice_to].
  rewrite bind_lift. cbn [py_get].
  unfold bind at 1. cbn [now files clock ticks backend requests].
  rewrite (bind_returned _ _ _ _ _ (save_checkpoint_eq _ _ _ _)).
  cbn [files clock ticks backend requests Nat.add lift py_setitem].
  unfold long_run_data, long_request.
  destruct (dict_get "execution_time_sec" d); reflexivity.
Qed.

(** X25: after a successful dispatch whose body is an object with a string
    ["stdout"] (or none), [run_code_long] with a non-empty checkpoint name
    that holds neither a path separator nor a NUL character saves a record
    that holds the first 500 characters of the code, the first 2000
    characters of the output, the reported execution time and the
    completion time, and returns the body with ["checkpoint_saved"] set to
    the path under which that record is stored. *)
Theorem X25_long_run_saves_truncated_record code name w text d out :
  backend w (length (requests w)) = NetResponse 200 text (inr (JDict d)) ->
  name <> "" ->
  plain_name name = true -> nul_free name = true ->
  py_get (JDict d) "stdout" (JStr "") = Returned (JStr out) ->
  let run := run_code_long COLAB_URL CHECKPOINT_DIR code (Some name) w in
  exists path code_head out_head stamp completed_at d',
    fst run = Returned (JDict d')
    /\ dict_get "checkpoint_saved" d' = Some (JStr path)
    /\ (forall key, key <> "checkpoint_saved" -> dict_get key d' = dict_get key d)
    /\ files (snd run) !! path
       = Some (Some (checkpoint_record stamp name
                       (JDict [("code", JStr code_head);
                               ("stdout", JStr out_head);
                               ("execution_time",
                                default JNull (dict_get "execution_time_sec" d));
                               ("completed_at", JStr completed_at)])))
    /\ String.prefix code_head code = true
    /\ String.length code_head = Nat.min 500 (String.length code)
    /\ String.prefix out_head out = true
    /\ String.length out_head = Nat.min 2000 (String.length out).
Proof.
  intros Hev Hname _ _ Hout run. subst run.
  rewrite (run_code_long_saved_eq code name w text d out Hev Hname Hout).
  cbn [fst snd files].
  exists (checkpoint_file CHECKPOINT_DIR name (ymd (clock w (1 + ticks w)))).
  rewrite lookup_insert_eq.
  do 5 eexists. split; [reflexivity|]. split; [apply dict_get_set_eq|].
  split; [intros key Hkey; now rewrite dict_get_set_ne by congruence|].
  split; [reflexivity|].
  split; [apply prefix_substring_0|]. split; [apply length_substring_0|].
  split; [apply prefix_substring_0|apply length_substring_0].
Qed.

(** X26: when a checkpoint is requested and the successful reply is not an
    object, [run_code_long] raises [AttributeError] after the request has
    been sent, and writes nothing. *)
Theorem X26_long_run_non_object_payload code name w text data :
  backend w (length (requests w)) = NetResponse 200 text (inr data) ->
  name <> "" ->
  (forall d, data <> JDict d) ->
  run_code_long COLAB_URL CHECKPOINT_DIR code (Some name) w
  = (Raised AttributeError,
     World (files w) (clock w) (ticks w) (backend w)
           (requests w ++ [long_request COLAB_URL code])).
Proof.
  intros Hev Hname Hobj. unfold run_code_long. cbn [from_option]. unfold id.
  rewrite (bind_returned _ _ _ _ _ (make_request_eq _ _ _ _ _ _)).
  rewrite bind_lift, reply_dict_success, Hev. cbn [reply_success Z.eqb Pos.eqb truthy].
  unfold bind at 1. unfold lift at 1. rewrite reply_dict_data. cbn [Z.eqb Pos.eqb].
  destruct (String.eqb_spec name "") as [|_]; [contradiction|]. cbn [negb].
  unfold bind at 1. rewrite bind_lift. cbn [ret truthy].
  rewrite bind_lift.
  destruct data; try reflexivity. now destruct (Hobj d).
Qed.

(** X27: a long run and a chunked job share the checkpoint namespace.  When
    [run_code_long] has saved its record under a name, a
    [run_chunked_operation] call with that name on the same day finds no
    ["completed"] in it and starts at 0, sending the first batch with the
    setup code, and its progress record replaces the record of the long
    run. *)
Theorem X27_long_run_then_chunked_job code setup loop n b name day w text d out :
  same_day w day ->
  backend w (length (requests w)) = NetResponse 200 text (inr (JDict d)) ->
  name <> "" ->
  py_get (JDict d) "stdout" (JStr "") = Returned (JStr out) ->
  reply_usable (backend w (S (length (requests w)))) = true ->
  let w1 := snd (run_code_long COLAB_URL CHECKPOINT_DIR code (Some name) w) in
  let w2 := snd (run_chunked_operation COLAB_URL CHECKPOINT_DIR setup loop n b name w1) in
  start_of (files w1 !! checkpoint_file CHECKPOINT_DIR name day) = Returned (JInt 0)
  /\ requests w2
     = (requests w ++ [long_request COLAB_URL code;
                       execute_request COLAB_URL
                         (full_code setup loop (JInt 0) (Z.min b n))])%list
  /\ exists stamp excerpt,
       files w2 !! checkpoint_file CHECKPOINT_DIR name day
       = Some (Some (checkpoint_record stamp name (progress_data (Z.min b n) n excerpt))).
Proof.
  intros Hday Hev Hname Hout Hus w1 w2. subst w2 w1.
  rewrite (run_code_long_saved_eq code name w text d out Hev Hname Hout).
  cbn [snd]. rewrite (Hday (1 + ticks w)%nat).
  match goal with |- context [run_chunked_operation _ _ _ _ _ _ _ ?x] => set (w1 := x) end.
  assert (Hstart : start_of (files w1 !! checkpoint_file CHECKPOINT_DIR name day)
                   = Returned (JInt 0)).
  { subst w1. cbn [files]. now rewrite lookup_insert_eq. }
  assert (Hus1 : reply_usable (backend w1 (length (requests w1))) = true).
  { subst w1. cbn [backend requests]. now rewrite length_app, Nat.add_1_r. }
  destruct (run_chunked_operation_step COLAB_URL CHECKPOINT_DIR setup loop n b name day
              w1 (JInt 0) 0 Hday Hstart eq_refl Hus1) as [excerpt Hrun].
  rewrite Z.add_0_l in Hrun. rewrite Hrun. cbn [snd files requests].
  split; [exact Hstart|]. split.
  - subst w1. cbn [requests]. now rewrite <- app_assoc.
  - rewrite lookup_insert_eq. eauto.
Qed.

(** X28: the lookup capability shows the progress of a chunked job: after
    a call of [run_chunked_operation] that reached its checkpoint write,
    [get_checkpoint] for the same name on the same day returns the record
    with ["exists": True], the operation name and the recorded [completed]
    and [total]. *)
Theorem X28_lookup_after_chunk setup loop n b name day w start_idx s :
  same_day w day ->
  start_of (files w !! checkpoint_file CHECKPOINT_DIR name day) = Returned start_idx ->
  py_int start_idx = Some s ->
  reply_usable (backend w (length (requests w))) = true ->
  let w' := snd (run_chunked_operation COLAB_URL CHECKPOINT_DIR setup loop n b name w) in
  exists stamp excerpt,
    fst (get_checkpoint CHECKPOINT_DIR name w')
    = Returned (JDict [("exists", JBool true);
                       ("timestamp", JStr stamp);
                       ("operation", JStr name);
                       ("data", progress_data (Z.min (s + b) n) n excerpt)]).
Proof.
  intros Hday Hstart Hint Hus w'.
  destruct (run_chunked_operation_step COLAB_URL CHECKPOINT_DIR setup loop n b name day
              w start_idx s Hday Hstart Hint Hus) as [excerpt Hrun].
  subst w'. rewrite Hrun. cbn [snd].
  match goal with |- context [get_checkpoint _ _ ?x] => set (w1 := x) end.
  pose proof (load_checkpoint_eq CHECKPOINT_DIR name w1) as HL.
  subst w1. cbn [files clock ticks] in HL.
  rewrite (Hday _), lookup_insert_eq in HL. cbn [loaded] in HL.
  unfold get_checkpoint. rewrite (bind_returned _ _ _ _ _ HL).
  do 2 eexists. reflexivity.
Qed.

End MoreFacts.

(** ** Further runs on concrete inputs *)





Lemma X5_get_checkpoint_of_stored_object_witness :
  get_checkpoint example_dir "job" (world_of finished_job NetConnectionError)
  = (Returned (JDict [("exists", JBool true);
                      ("timestamp", JStr "2026-01-01T08:00:00");
                      ("operation", JStr "job");
                      ("data", progress_data 10 10 (JStr ""))]),
     advance 1 (world_of finished_job NetConnectionError)).
Proof.
  apply (X5_get_checkpoint_of_stored_object example_dir "job"
           [("timestamp", JStr "2026-01-01T08:00:00");
            ("operation", JStr "job");
            ("data", progress_data 10 10 (JStr ""))]
           (world_of finished_job NetConnectionError)).
  - reflexivity.
  - discriminate.
  - cbn. repeat constructor; cbn; intuition discriminate.
Defined.

Lemma X6_get_checkpoint_not_found_witness :
  get_checkpoint example_dir "job" (world_of ∅ NetConnectionError)
  = (Returned (JDict [("exists", JBool false);
                      ("message", JStr "No checkpoint found for 'job'")]),
     advance 1 (world_of ∅ NetConnectionError)).
Proof.
  apply (X6_get_checkpoint_not_found example_dir "job" (world_of ∅ NetConnectionError)).
  left. reflexivity.
Defined.

Lemma X7_get_checkpoint_of_non_object_witness :
  fst (get_checkpoint example_dir "job" (world_of listed_job NetConnectionError))
  = Raised TypeError.
Proof.
  apply (X7_get_checkpoint_of_non_object example_dir "job" (JList [JInt 1])
           (world_of listed_job NetConnectionError)).
  - reflexivity.
  - reflexivity.
  - discriminate.
Defined.

Lemma X9_http_error_body_bounded_witness :
  exists excerpt,
    fst (make_request example_url "GET" "/health" 30 None
           (world_of ∅ (NetResponse 404 "Not Found" (inl "no JSON"))))
    = Returned (JDict [("success", JBool false);
                       ("error", JStr "HTTP 404");
                       ("body", JStr excerpt)])
    /\ String.prefix excerpt "Not Found" = true
    /\ String.length excerpt = Nat.min 500 (String.length "Not Found").
Proof.
  apply (X9_http_error_body_bounded example_url "GET" "/health" 30 None
           (world_of ∅ (NetResponse 404 "Not Found" (inl "no JSON")))
           404 "Not Found" (inl "no JSON")).
  - reflexivity.
  - discriminate.
Defined.

Lemma X10_malformed_checkpoint_stops_before_dispatch_witness :
  run_chunked_operation example_url example_dir "x=1" "print(i)" 25 10 "job"
    (world_of garbled_job (stdout_reply "ok"))
  = (Raised JSONDecodeError, advance 1 (world_of garbled_job (stdout_reply "ok")))
  /\ run_chunked_operation example_url example_dir "x=1" "print(i)" 25 10 "job"
       (world_of mistyped_job (stdout_reply "ok"))
     = (Raised TypeError, advance 1 (world_of mistyped_job (stdout_reply "ok"))).
Proof.
  split.
  - apply (proj1 (X10_malformed_checkpoint_stops_before_dispatch example_url example_dir
                    "x=1" "print(i)" 25 10 "job"
                    (world_of garbled_job (stdout_reply "ok")))).
    reflexivity.
  - apply (proj2 (X10_malformed_checkpoint_stops_before_dispatch example_url example_dir
                    "x=1" "print(i)" 25 10 "job"
                    (world_of mistyped_job (stdout_reply "ok"))) (JStr "10")).
    + reflexivity.
    + reflexivity.
Defined.

Lemma X11_unusable_reply_leaves_checkpoint_witness :
  let w := world_of ∅ (NetResponse 200 "[]" (inr (JList []))) in
  let run := run_chunked_operation example_url example_dir "x=1" "print(i)" 25 10 "job" w in
  (fst run = Raised AttributeError \/ fst run = Raised TypeError)
  /\ files (snd run) = files w
  /\ requests (snd run)
     = (requests w ++ [execute_request example_url
                         (full_code "x=1" "print(i)" (JInt 0) (Z.min (0 + 10) 25))])%list.
Proof.
  apply (X11_unusable_reply_leaves_checkpoint example_url example_dir "x=1" "print(i)"
           25 10 "job" (world_of ∅ (NetResponse 200 "[]" (inr (JList [])))) (JInt 0) 0);
    reflexivity.
Defined.



Lemma X14_returned_progress_is_consistent_witness :
  25 <> 0
  /\ completed first_result = Z.min (0 + 10) 25
  /\ completed first_result + remaining first_result = 25
  /\ completed first_result <= 25
  /\ can_continue first_result = (0 <? remaining first_result)
  /\ (next_command first_result = None <-> can_continue first_result = false).
Proof.
  apply (X14_returned_progress_is_consistent example_url example_dir "x=1" "print(i)"
           25 10 "job" (world_of ∅ (stdout_reply "ok")) (JInt 0) 0 first_result).
  - reflexivity.
  - reflexivity.
  - vm_compute. reflexivity.
Defined.



Lemma X18_connection_check_reports_failure_witness :
  let w := world_of ∅ NetConnectionError in
  exists message,
    check_colab_connection example_url w
    = (Returned (JDict [("status", JStr "disconnected");
                        ("error", JStr message);
                        ("colab_url", JStr example_url);
                        ("suggestion",
                         JStr "Check if Colab notebook is running and ngrok URL is correct")]),
       World (files w) (clock w) (ticks w) (backend w)
             (requests w ++ [Request GET (example_url +:+ "/health") 30 None]))
    /\ py_item (reply_dict example_url 30 (backend w (length (requests w)))) "error"
       = Returned (JStr message).
Proof.
  apply (X18_connection_check_reports_failure example_url (world_of ∅ NetConnectionError)).
  reflexivity.
Defined.

Lemma X19_connection_check_marks_payload_witness :
  exists d',
    fst (check_colab_connection example_url
           (world_of ∅ (NetResponse 200 "" (inr (JDict [("status", JStr "ok")])))))
    = Returned (JDict d')
    /\ dict_get "status" d' = Some (JStr "connected")
    /\ dict_get "colab_url" d' = Some (JStr example_url)
    /\ forall key, key <> "status" -> key <> "colab_url" ->
                   dict_get key d' = dict_get key [("status", JStr "ok")].
Proof.
  apply (X19_connection_check_marks_payload example_url
           (world_of ∅ (NetResponse 200 "" (inr (JDict [("status", JStr "ok")])))) "").
  reflexivity.
Defined.

Lemma X20_non_object_payload_raises_witness :
  let w := world_of ∅ (NetResponse 200 "[]" (inr (JList []))) in
  fst (check_colab_connection example_url w) = Raised TypeError
  /\ fst (probe_colab_environment example_url w) = Raised AttributeError.
Proof.
  apply (X20_non_object_payload_raises example_url
           (world_of ∅ (NetResponse 200 "[]" (inr (JList [])))) "[]" (JList [])).
  - reflexivity.
  - discriminate.
Defined.

Lemma X21_probe_recommendations_witness :
  exists d',
    fst (probe_colab_environment example_url
           (world_of ∅ (NetResponse 200 "" (inr (JDict healthy_probe)))))
    = Returned (JDict d')
    /\ dict_get "recommendations" d'
       = Some (JList ((if truthy (JBool true) then [] else [no_gpu_advice])
                      ++ (if 12 <? 4 then [low_ram_advice 12] else [])
                      ++ (if 20 <? 30 then [session_advice] else [])))
    /\ forall key, key <> "recommendations" -> dict_get key d' = dict_get key healthy_probe.
Proof.
  apply (X21_probe_recommendations example_url
           (world_of ∅ (NetResponse 200 "" (inr (JDict healthy_probe)))) ""
           healthy_probe healthy_gpu healthy_compute healthy_limits (JBool true) 12 20);
    reflexivity || (vm_compute; discriminate).
Defined.

Lemma X22_probe_defaults_for_missing_sections_witness :
  fst (probe_colab_environment example_url (world_of ∅ (stdout_reply "ok")))
  = Returned (JDict (dict_set "recommendations"
                       (JList [no_gpu_advice; low_ram_advice 0])
                       [("stdout", JStr "ok")])).
Proof.
  apply (X22_probe_defaults_for_missing_sections example_url
           (world_of ∅ (stdout_reply "ok")) "" [("stdout", JStr "ok")]); reflexivity.
Defined.

Lemma X23_probe_null_section_raises_witness :
  fst (probe_colab_environment example_url
         (world_of ∅ (NetResponse 200 "" (inr (JDict [("gpu", JNull)])))))
  = Raised AttributeError.
Proof.
  apply (X23_probe_null_section_raises example_url
           (world_of ∅ (NetResponse 200 "" (inr (JDict [("gpu", JNull)])))) ""
           [("gpu", JNull)] JNull).
  - reflexivity.
  - reflexivity.
  - discriminate.
  - reflexivity.
Defined.

Lemma X24_long_run_without_checkpoint_witness :
  let w := world_of ∅ (stdout_reply "ok") in
  run_code_long example_url example_dir "train()" None w
  = (Returned (passed_through example_url 660 (backend w (length (requests w)))),
     World (files w) (clock w) (ticks w) (backend w)
           (requests w ++ [long_request example_url "train()"])).
Proof.
  apply (X24_long_run_without_checkpoint example_url example_dir "train()" None
           (world_of ∅ (stdout_reply "ok"))).
  left. reflexivity.
Defined.

Lemma X25_long_run_saves_truncated_record_witness :
  let w := world_of ∅ (stdout_reply "ok") in
  let run := run_code_long example_url example_dir "train()" (Some "train") w in
  exists path code_head out_head stamp completed_at d',
    fst run = Returned (JDict d')
    /\ dict_get "checkpoint_saved" d' = Some (JStr path)
    /\ (forall key, key <> "checkpoint_saved" ->
                    dict_get key d' = dict_get key [("stdout", JStr "ok")])
    /\ files (snd run) !! path
       = Some (Some (checkpoint_record stamp "train"
                       (JDict [("code", JStr code_head);
                               ("stdout", JStr out_head);
                               ("execution_time",
                                default JNull
                                  (dict_get "execution_time_sec" [("stdout", JStr "ok")]));
                               ("completed_at", JStr completed_at)])))
    /\ String.prefix code_head "train()" = true
    /\ String.length code_head = Nat.min 500 (String.length "train()")
    /\ String.prefix out_head "ok" = true
    /\ String.length out_head = Nat.min 2000 (String.length "ok").
Proof.
  apply (X25_long_run_saves_truncated_record example_url example_dir "train()" "train"
           (world_of ∅ (stdout_reply "ok")) "" [("stdout", JStr "ok")] "ok").
  - reflexivity.
  - discriminate.
  - reflexivity.
  - reflexivity.
  - reflexivity.
Defined.

Lemma X26_long_run_non_object_payload_witness :
  let w := world_of ∅ (NetResponse 200 "[]" (inr (JList []))) in
  run_code_long example_url example_dir "train()" (Some "train") w
  = (Raised AttributeError,
     World (files w) (clock w) (ticks w) (backend w)
           (requests w ++ [long_request example_url "train()"])).
Proof.
  apply (X26_long_run_non_object_payload example_url example_dir "train()" "train"
           (world_of ∅ (NetResponse 200 "[]" (inr (JList [])))) "[]" (JList [])).
  - reflexivity.
  - discriminate.
  - discriminate.
Defined.

Lemma X27_long_run_then_chunked_job_witness :
  let w := world_of ∅ (stdout_reply "ok") in
  let w1 := snd (run_code_long example_url example_dir "train()" (Some "job") w) in
  let w2 := snd (run_chunked_operation example_url example_dir "x=1" "print(i)" 25 10 "job"
                   w1) in
  start_of (files w1 !! checkpoint_file example_dir "job" "20260101") = Returned (JInt 0)
  /\ requests w2
     = (requests w ++ [long_request example_url "train()";
                       execute_request example_url
                         (full_code "x=1" "print(i)" (JInt 0) (Z.min 10 25))])%list
  /\ exists stamp excerpt,
       files w2 !! checkpoint_file example_dir "job" "20260101"
       = Some (Some (checkpoint_record stamp "job" (progress_data (Z.min 10 25) 25 excerpt))).
Proof.
  apply (X27_long_run_then_chunked_job example_url example_dir "train()" "x=1" "print(i)"
           25 10 "job" "20260101" (world_of ∅ (stdout_reply "ok")) ""
           [("stdout", JStr "ok")] "ok").
  - intros k. reflexivity.
  - reflexivity.
  - discriminate.
  - reflexivity.
  - reflexivity.
Defined.

Lemma X28_lookup_after_chunk_witness :
  let w' := snd (run_chunked_operation example_url example_dir "x=1" "print(i)" 25 10 "job"
                   (world_of ∅ (stdout_reply "ok"))) in
  exists stamp excerpt,
    fst (get_checkpoint example_dir "job" w')
    = Returned (JDict [("exists", JBool true);
                       ("timestamp", JStr stamp);
                       ("operation", JStr "job");
                       ("data", progress_data (Z.min (0 + 10) 25) 25 excerpt)]).
Proof.
  apply (X28_lookup_after_chunk example_url example_dir "x=1" "print(i)" 25 10 "job"
           "20260101" (world_of ∅ (stdout_reply "ok")) (JInt 0) 0).
  - intros k. reflexivity.
  - reflexivity.
  - reflexivity.
  - reflexivity.
Defined.
